(** * The terminal recorder of demo-automation/generate-demo-video.py

    A shallow embedding of the class [TerminalRecorder]: its virtual clock,
    its event list, the typing and pause simulation, the colour formatter
    and the asciicast serializer, of the demo script
    [generate_vibesec_demo] and of [main], followed by the properties of
    the recording engine, of the script and of the command line.

    - The clock and the timestamps are Python floats, modelled as IEEE 754
      binary64 numbers with the arithmetic of [SpecFloat]: every [+] of
      the source is one rounded addition.  An integer argument, as in
      [pause(2)], is the float it converts to.
    - A Python string is a [string], one [ascii] per character; the
      engine never looks inside a character.
    - The methods mutate [self]; here each takes the recorder and returns
      the recorder it leaves behind.
    - [json.dumps], [time.time] and the file belong to the interpreter:
      the serializer is parametric in the first, takes the value of the
      second as an argument and returns the text of the third.
    - The demo script is a statement in a state monad over the recorder,
      written call for call as in the source; [main] runs on a world of
      printed lines and files. *)

From Stdlib Require Import ZArith QArith Bool List Ascii String Lia Sorted.
From Stdlib Require Import SpecFloat.
From stdpp Require Import gmap strings pretty.

Local Open Scope Z_scope.
Local Open Scope string_scope.
Local Open Scope list_scope.

(** ** Python floats

    A Python [float] is an IEEE 754 binary64 number.  [spec_float] with a
    53 bit significand and exponent bound 1024 is that format; [+] on
    floats is [SFadd], a single addition rounded to nearest, ties to even,
    and [<], [<=] are [SFltb], [SFleb] (both false when an operand is a
    NaN). *)
Module Float.

Definition prec : Z := 53.
Definition emax : Z := 1024.

Definition add : spec_float -> spec_float -> spec_float := SFadd prec emax.
Definition mul : spec_float -> spec_float -> spec_float := SFmul prec emax.
Definition div : spec_float -> spec_float -> spec_float := SFdiv prec emax.
Definition ltb : spec_float -> spec_float -> bool := SFltb.
Definition leb : spec_float -> spec_float -> bool := SFleb.

(** The float that an integer converts to. *)
Definition of_Z (z : Z) : spec_float := binary_normalize prec emax z 0 false.

(** The float denoted by the decimal literal [n / 10^k], for instance
    [0.05] is [decimal 5 2]: numerator and denominator are exact and the
    quotient is rounded once. *)
Definition decimal (n : Z) (k : positive) : spec_float :=
  div (of_Z n) (of_Z (Z.pow_pos 10 k)).

Definition zero : spec_float := S754_zero false.

(** Every float of the interpreter is a value of the format: its
    significand and exponent are the canonical ones. *)
Definition valid (x : spec_float) : Prop := valid_binary prec emax x = true.

(** [0.0 <= x]; false for a NaN. *)
Definition nonneg (x : spec_float) : Prop := leb zero x = true.

(** The rational number a finite float stands for. *)
Definition to_Q (x : spec_float) : option Q :=
  match x with
  | S754_zero _ => Some 0%Q
  | S754_finite s m e =>
      Some ((if s then Qopp else fun q => q) (inject_Z (Zpos m) * Qpower 2 e)%Q)
  | _ => None
  end.

(** [n] successive additions of [d] to [c]. *)
Fixpoint add_n (n : nat) (c d : spec_float) : spec_float :=
  match n with
  | O => c
  | S n' => add_n n' (add c d) d
  end.

End Float.

(** ** The recorder *)

(** An element of [self.events]: [(timestamp, event_type, data)]. *)
Definition event : Type := spec_float * string * string.

Definition ev_time (e : event) : spec_float := fst (fst e).
Definition ev_type (e : event) : string := snd (fst e).
Definition ev_data (e : event) : string := snd e.

Record TerminalRecorder : Type := mkRecorder {
  width : Z;
  height : Z;
  events : list event;
  current_time : spec_float
}.

(** [TerminalRecorder.__init__]. *)
Definition init (width height : Z) : TerminalRecorder :=
  {| width := width; height := height; events := []; current_time := Float.zero |}.

(** [TerminalRecorder()] with the default dimensions. *)
Definition init_default : TerminalRecorder := init 80 24.

(** [TerminalRecorder.write]: the methods mutate [self]; here they take
    the recorder and return the mutated one. *)
Definition write (text : string) (delay : spec_float) (self : TerminalRecorder)
  : TerminalRecorder :=
  let t := if Float.ltb Float.zero delay
           then Float.add (current_time self) delay
           else current_time self in
  {| width := width self; height := height self;
     events := events self ++ [(t, "o", text)];
     current_time := t |}.

(** [TerminalRecorder.type_text]: one [write] per character, in order. *)
Fixpoint type_text (text : string) (typing_speed : spec_float)
    (self : TerminalRecorder) : TerminalRecorder :=
  match text with
  | EmptyString => self
  | String char rest =>
      type_text rest typing_speed (write (String char EmptyString) typing_speed self)
  end.

(** [TerminalRecorder.pause]. *)
Definition pause (duration : spec_float) (self : TerminalRecorder)
  : TerminalRecorder :=
  {| width := width self; height := height self;
     events := events self;
     current_time := Float.add (current_time self) duration |}.

(** The escape character, written [\033] in the source. *)
Definition ESC : string := String "027"%char EmptyString.

(** [TerminalRecorder.clear_screen]: [write] with its default delay [0.0]. *)
Definition clear_screen (self : TerminalRecorder) : TerminalRecorder :=
  write (ESC +:+ "[2J" +:+ ESC +:+ "[H") Float.zero self.

(** The sequence that clears the screen and homes the cursor. *)
Definition CLEAR_AND_HOME : string := ESC +:+ "[2J" +:+ ESC +:+ "[H".

(** The reset code. *)
Definition RESET : string := ESC +:+ "[0m".

(** The text typed at line 123 of the script. *)
Definition CLONE : string := "git clone https://github.com/ferg-cod3s/vibesec.git".

(** The dictionary literal of [TerminalRecorder.color]. *)
Definition colors : gmap string string :=
  list_to_map
    [ ("red",    ESC +:+ "[0;31m");
      ("green",  ESC +:+ "[0;32m");
      ("yellow", ESC +:+ "[1;33m");
      ("blue",   ESC +:+ "[0;34m");
      ("purple", ESC +:+ "[0;35m");
      ("cyan",   ESC +:+ "[0;36m");
      ("bold",   ESC +:+ "[1m");
      ("reset",  ESC +:+ "[0m") ].

(** [d.get(key, dflt)]. *)
Definition dict_get (d : gmap string string) (key dflt : string) : string :=
  default dflt (d !! key).

(** [TerminalRecorder.color]: the f-string
    [{colors.get(color_code, '')}{text}{colors['reset']}]; the subscript
    does not raise, ["reset"] being a key of the literal.  [self] is a
    parameter of the method and is returned as it was received. *)
Definition color (text color_code : string) (self : TerminalRecorder)
  : string * TerminalRecorder :=
  (dict_get colors color_code "" +:+ text +:+ colors !!! "reset", self).

(** ** Calls

    A method call either returns, leaving the recorder mutated, or raises
    an exception.  No method of the class has a [raise] statement, and the
    float comparison, the float addition and [list.append] they are made
    of do not raise: a call of a method always returns. *)
Inductive exception : Type := ValueError.

Inductive outcome : Type :=
| Returned (self' : TerminalRecorder)
| Raised (e : exception) (self' : TerminalRecorder).

Definition invoke (method : TerminalRecorder -> TerminalRecorder)
    (self : TerminalRecorder) : outcome :=
  Returned (method self).

(** A script is a sequence of calls on one recorder. *)
Inductive call : Type :=
| DoWrite (text : string) (delay : spec_float)
| DoTypeText (text : string) (typing_speed : spec_float)
| DoPause (duration : spec_float)
| DoClearScreen.

Definition exec (c : call) (self : TerminalRecorder) : TerminalRecorder :=
  match c with
  | DoWrite text delay => write text delay self
  | DoTypeText text typing_speed => type_text text typing_speed self
  | DoPause duration => pause duration self
  | DoClearScreen => clear_screen self
  end.

Definition run (cs : list call) (self : TerminalRecorder) : TerminalRecorder :=
  fold_left (fun r c => exec c r) cs self.

(** The calls of [write] that one call is made of: [type_text] is its
    loop unrolled, every other call is itself. *)
Definition steps (c : call) : list call :=
  match c with
  | DoTypeText text typing_speed =>
      map (fun ch => DoWrite (String ch EmptyString) typing_speed)
          (list_ascii_of_string text)
  | _ => [c]
  end.

(** The delay or duration of a call is a float and is not negative. *)
Definition arg_ok (d : spec_float) : Prop := Float.valid d /\ Float.nonneg d.

Definition call_ok (c : call) : Prop :=
  match c with
  | DoWrite _ d | DoTypeText _ d | DoPause d => arg_ok d
  | DoClearScreen => True
  end.

(** The clock after [n] calls of [write] with delay [d]: [n] successive
    additions of [d] when [d > 0], none otherwise. *)
Definition tick_n (n : nat) (c d : spec_float) : spec_float :=
  if Float.ltb Float.zero d then Float.add_n n c d else c.

(** Events of the output channel. *)
Definition all_output (evs : list event) : Prop :=
  Forall (fun ev => ev_type ev = "o") evs.

(** [a <= b] on floats. *)
Definition le_float (a b : spec_float) : Prop := Float.leb a b = true.

(** The invariant of the timeline: the clock is a non-negative float, the
    timestamps are in non-decreasing order and none is ahead of the clock. *)
Record timeline_ok (r : TerminalRecorder) : Prop := {
  clock_valid : Float.valid (current_time r);
  clock_nonneg : Float.nonneg (current_time r);
  stamps_sorted : StronglySorted le_float (map ev_time (events r));
  stamps_past : Forall (fun t => le_float t (current_time r)) (map ev_time (events r))
}.

(** ** The asciicast serializer *)

(** The values handed to [json.dumps]: integers, floats, strings, lists
    and dictionaries (in insertion order). *)
#[local] Unset Elimination Schemes.
Inductive json : Type :=
| JInt (z : Z)
| JFloat (x : spec_float)
| JStr (s : string)
| JList (items : list json)
| JDict (fields : list (string * json)).
#[local] Set Elimination Schemes.

(** The line feed, written [\n] in the source. *)
Definition NL : string := String "010"%char EmptyString.

(** The dictionary [header] of [save_asciicast]; [now] is the value of
    [int(time.time())] at the call. *)
Definition header (self : TerminalRecorder) (now : Z) : json :=
  JDict [ ("version", JInt 2);
          ("width", JInt (width self));
          ("height", JInt (height self));
          ("timestamp", JInt now);
          ("title", JStr "VibeSec Demo");
          ("env", JDict [ ("SHELL", JStr "/bin/bash");
                          ("TERM", JStr "xterm-256color") ]) ].

(** The list [[timestamp, event_type, data]] of one event. *)
Definition event_record (ev : event) : json :=
  let '(timestamp, event_type, data) := ev in
  JList [JFloat timestamp; JStr event_type; JStr data].

(** [header[key]]. *)
Fixpoint field (key : string) (fields : list (string * json)) : option json :=
  match fields with
  | [] => None
  | (k, v) :: rest => if String.eqb k key then Some v else field key rest
  end.

Definition json_field (key : string) (v : json) : option json :=
  match v with
  | JDict fields => field key fields
  | _ => None
  end.

(** A text without a line feed. *)
Fixpoint one_line (s : string) : bool :=
  match s with
  | EmptyString => true
  | String c rest => negb (Ascii.eqb c "010"%char) && one_line rest
  end.

(** The text of a file whose lines are [ls]. *)
Definition unlines (ls : list string) : string :=
  fold_right (fun l rest => l +:+ NL +:+ rest) EmptyString ls.

(** The records [save_asciicast] hands to [json.dumps], in the order of
    its calls. *)
Definition cast_records (self : TerminalRecorder) (now : Z) : list json :=
  header self now :: map event_record (events self).

(** Modelled from the spec: the records of a recording are separated by
    line feeds, each on a line of its own; [lines] are the lines of a
    text, without their line feeds. *)
Fixpoint lines (s : string) : list string :=
  match s with
  | EmptyString => []
  | String c rest =>
      if Ascii.eqb c "010"%char then EmptyString :: lines rest
      else match lines rest with
           | [] => [String c EmptyString]
           | l :: ls => String c l :: ls
           end
  end.

(** Modelled from the spec: the [(timestamp, channel, payload)] triple
    that a three element record stands for. *)
Definition record_event (v : json) : option event :=
  match v with
  | JList [JFloat timestamp; JStr event_type; JStr data] =>
      Some (timestamp, event_type, data)
  | _ => None
  end.

(** [f.write(s)] on a file opened for writing: the text is appended. *)
Definition f_write (s : string) (f : string) : string := f +:+ s.

Section Serializer.

(** [json.dumps] and [json.loads] belong to the interpreter's library;
    the serializer is parametric in them. *)
Variable dumps : json -> string.
Variable loads : string -> option json.

(** [TerminalRecorder.save_asciicast]: the text of the file it leaves
    behind.  The file is opened with mode ["w"], so it starts empty; what
    the method prints afterwards is left out. *)
Definition save_asciicast (self : TerminalRecorder) (now : Z) : string :=
  let f := f_write (dumps (header self now) +:+ NL) EmptyString in
  fold_left (fun f ev => f_write (dumps (event_record ev) +:+ NL) f)
            (events self) f.

(** Modelled from the spec: the reader of a recording, which the
    repository does not have.  It reads the header record from the first
    line and one event from each line after it. *)
Definition parse_cast (file : string) : option (json * list event) :=
  match lines file with
  | [] => None
  | first :: rest =>
      hd ← loads first;
      evs ← mapM (fun l => loads l ≫= record_event) rest;
      Some (hd, evs)
  end.

(** The library contract on one value: it is read back as it was
    written, and its text stays on one line. *)
Definition round_trips (v : json) : Prop :=
  loads (dumps v) = Some v /\ one_line (dumps v) = true.

End Serializer.

(** ** A JSON writer and reader

    An instance of the library the serializer is parametric in, for the
    values the recorder writes.  Strings are escaped as [json.dumps]
    escapes them.  A float is written with all the digits of its decimal
    expansion, where [json.dumps] writes the shortest decimal that reads
    back to the same float, and is read back by one division rounded to
    nearest.  Exponent notation is left out. *)
Module Json.

Definition DQ : ascii := "034"%char.
Definition BS : ascii := "092"%char.

Definition hex_digit (n : N) : ascii :=
  ascii_of_N (if (n <? 10)%N then 48 + n else 87 + n).

Definition escape_char (c : ascii) : string :=
  let n := N_of_ascii c in
  if (n =? 34)%N then String BS (String DQ "")
  else if (n =? 92)%N then String BS (String BS "")
  else if (n =? 10)%N then String BS "n"
  else if (n =? 13)%N then String BS "r"
  else if (n =? 9)%N then String BS "t"
  else if (n =? 8)%N then String BS "b"
  else if (n =? 12)%N then String BS "f"
  else if ((32 <=? n) && (n <=? 126))%N then String c ""
  else String BS ("u00" +:+ String (hex_digit (n / 16)) (String (hex_digit (n mod 16)) "")).

Fixpoint escape (s : string) : string :=
  match s with
  | EmptyString => EmptyString
  | String c rest => escape_char c +:+ escape rest
  end.

Definition dumps_str (s : string) : string :=
  String DQ (escape s +:+ String DQ "").

Fixpoint drop_zeros (s : string) : string :=
  match s with
  | String "0" rest => drop_zeros rest
  | _ => s
  end.

(** The digits after the point of [n / 10^k], without trailing zeros. *)
Definition fraction_digits (n : Z) (k : Z) : string :=
  match pretty (10 ^ k + n mod 10 ^ k) with
  | String _ ds =>
      match String.rev (drop_zeros (String.rev ds)) with
      | EmptyString => "0"
      | ds' => ds'
      end
  | EmptyString => "0"
  end.

Definition float_repr (x : spec_float) : string :=
  match x with
  | S754_nan => "NaN"
  | S754_infinity s => (if s then "-" else "") +:+ "Infinity"
  | S754_zero s => (if s then "-" else "") +:+ "0.0"
  | S754_finite s m e =>
      (if s then "-" else "") +:+
      (if (0 <=? e)%Z then pretty (Zpos m * 2 ^ e) +:+ ".0"
       else let n := Zpos m * 5 ^ (- e) in
            pretty (n / 10 ^ (- e)) +:+ "." +:+ fraction_digits n (- e))
  end.

Fixpoint join (sep : string) (ls : list string) : string :=
  match ls with
  | [] => EmptyString
  | [l] => l
  | l :: ls => l +:+ sep +:+ join sep ls
  end.

(** The writer: the text of a value, with the separators [json.dumps]
    puts by default. *)
Fixpoint dumps (v : json) : string :=
  match v with
  | JInt z => pretty z
  | JFloat x => float_repr x
  | JStr s => dumps_str s
  | JList items => "[" +:+ join ", " (map dumps items) +:+ "]"
  | JDict fields =>
      "{" +:+ join ", " (map (fun kv => dumps_str (fst kv) +:+ ": " +:+ dumps (snd kv)) fields)
          +:+ "}"
  end.

Definition is_space (c : ascii) : bool :=
  let n := N_of_ascii c in ((n =? 32) || (n =? 10) || (n =? 13) || (n =? 9))%N.

Fixpoint skip_ws (s : string) : string :=
  match s with
  | String c rest => if is_space c then skip_ws rest else s
  | EmptyString => EmptyString
  end.

Definition hex_value (c : ascii) : option N :=
  let n := N_of_ascii c in
  if ((48 <=? n) && (n <=? 57))%N then Some (n - 48)%N
  else if ((97 <=? n) && (n <=? 102))%N then Some (n - 87)%N
  else if ((65 <=? n) && (n <=? 70))%N then Some (n - 55)%N
  else None.

Definition unescape (c : ascii) : option ascii :=
  let n := N_of_ascii c in
  if (n =? 34)%N then Some DQ
  else if (n =? 92)%N then Some BS
  else if (n =? 47)%N then Some "/"%char
  else if (n =? 110)%N then Some "010"%char
  else if (n =? 114)%N then Some "013"%char
  else if (n =? 116)%N then Some "009"%char
  else if (n =? 98)%N then Some "008"%char
  else if (n =? 102)%N then Some "012"%char
  else None.

(** The string that ends at the next unescaped quote, and what follows. *)
Fixpoint read_string (s : string) : option (string * string) :=
  match s with
  | EmptyString => None
  | String c r =>
      if Ascii.eqb c DQ then Some (EmptyString, r)
      else if Ascii.eqb c BS then
        match r with
        | String e r1 =>
            match unescape e with
            | Some ch => '(t, rest) ← read_string r1; Some (String ch t, rest)
            | None =>
                match r1 with
                | String h1 (String h2 (String h3 (String h4 r2))) =>
                    if Ascii.eqb e "u" then
                      a ← hex_value h1; b ← hex_value h2;
                      c' ← hex_value h3; d ← hex_value h4;
                      if ((a =? 0) && (b =? 0))%N then
                        '(t, rest) ← read_string r2;
                        Some (String (ascii_of_N (c' * 16 + d)) t, rest)
                      else None
                    else None
                | _ => None
                end
            end
        | EmptyString => None
        end
      else '(t, rest) ← read_string r; Some (String c t, rest)
  end.

(** The digits at the head of [s], read after the digits [acc]. *)
Fixpoint read_digits (s : string) (acc : Z) (count : nat) : Z * nat * string :=
  match s with
  | String c rest =>
      let n := N_of_ascii c in
      if ((48 <=? n) && (n <=? 57))%N
      then read_digits rest (10 * acc + Z.of_N (n - 48)) (S count)
      else (acc, count, s)
  | EmptyString => (acc, count, s)
  end.

(** The float nearest to [n / 10^k]. *)
Definition decimal_float (neg : bool) (n : Z) (k : nat) : spec_float :=
  if (n =? 0)%Z then S754_zero neg
  else
    let '(q, e, l) :=
      SFdiv_core_binary Float.prec Float.emax n 0 (10 ^ Z.of_nat k) 0 in
    binary_round_aux Float.prec Float.emax neg q e l.

Fixpoint strip_prefix (p s : string) : option string :=
  match p, s with
  | EmptyString, _ => Some s
  | String a p', String b s' => if Ascii.eqb a b then strip_prefix p' s' else None
  | _, _ => None
  end.

Definition read_number (s : string) : option (json * string) :=
  let '(neg, s1) :=
    match s with
    | String "-" r => (true, r)
    | _ => (false, s)
    end in
  match strip_prefix "Infinity" s1 with
  | Some rest => Some (JFloat (S754_infinity neg), rest)
  | None =>
      let '(ip, n1, s2) := read_digits s1 0 O in
      match n1 with
      | O => None
      | S _ =>
          match s2 with
          | String "." r =>
              let '(all, n2, s3) := read_digits r ip O in
              match n2 with
              | O => None
              | S _ => Some (JFloat (decimal_float neg all n2), s3)
              end
          | _ => Some (JInt (if neg then - ip else ip), s2)
          end
      end
  end.

(** [elem (, elem)* close], the opening bracket and a first look at an
    empty sequence being done. *)
Fixpoint read_more {A : Type} (elem : string -> option (A * string))
    (close : ascii) (fuel : nat) (s : string) : option (list A * string) :=
  match fuel with
  | O => None
  | S fuel' =>
      '(x, s1) ← elem s;
      match skip_ws s1 with
      | String c r =>
          if Ascii.eqb c close then Some ([x], r)
          else if Ascii.eqb c "," then
            '(xs, rest) ← read_more elem close fuel' r; Some (x :: xs, rest)
          else None
      | EmptyString => None
      end
  end.

Definition read_seq {A : Type} (elem : string -> option (A * string))
    (close : ascii) (s : string) : option (list A * string) :=
  match skip_ws s with
  | String c r =>
      if Ascii.eqb c close then Some ([], r)
      else read_more elem close (String.length s) s
  | EmptyString => None
  end.

Definition read_pair (value : string -> option (json * string)) (s : string)
  : option (string * json * string) :=
  match skip_ws s with
  | String c r =>
      if Ascii.eqb c DQ then
        '(k, s1) ← read_string r;
        match skip_ws s1 with
        | String ":" s2 => '(v, rest) ← value s2; Some (k, v, rest)
        | _ => None
        end
      else None
  | EmptyString => None
  end.

Fixpoint read_value (fuel : nat) (s : string) : option (json * string) :=
  match fuel with
  | O => None
  | S fuel' =>
      match skip_ws s with
      | String c r =>
          if Ascii.eqb c DQ then '(t, rest) ← read_string r; Some (JStr t, rest)
          else if Ascii.eqb c "[" then
            '(items, rest) ← read_seq (read_value fuel') "]" r; Some (JList items, rest)
          else if Ascii.eqb c "{" then
            '(fields, rest) ← read_seq (read_pair (read_value fuel')) "}" r;
            Some (JDict fields, rest)
          else match strip_prefix "NaN" (String c r) with
               | Some rest => Some (JFloat S754_nan, rest)
               | None => read_number (String c r)
               end
      | EmptyString => None
      end
  end.

(** The reader: the value of a text, which may end in white space. *)
Definition loads (s : string) : option json :=
  '(v, rest) ← read_value (S (String.length s)) s;
  match skip_ws rest with
  | EmptyString => Some v
  | _ => None
  end.

End Json.

(** ** Scripts, further *)

(** The number of events a call appends. *)
Definition emitted (c : call) : nat :=
  match c with
  | DoWrite _ _ => 1
  | DoTypeText text _ => String.length text
  | DoPause _ => 0
  | DoClearScreen => 1
  end.

(** A text with every character replaced by a space. *)
Fixpoint blank (text : string) : string :=
  match text with
  | EmptyString => EmptyString
  | String _ rest => String " " (blank rest)
  end.

(** A call with its text taken away: the empty text for [write], as many
    spaces as characters for [type_text]. *)
Definition timing (c : call) : call :=
  match c with
  | DoWrite _ d => DoWrite EmptyString d
  | DoTypeText text d => DoTypeText (blank text) d
  | DoPause d => DoPause d
  | DoClearScreen => DoClearScreen
  end.

(** No timestamp is below [0.0]. *)
Definition stamps_nonneg (r : TerminalRecorder) : Prop :=
  Forall Float.nonneg (map ev_time (events r)).

(** Two recorders with the same clock and the same timestamps. *)
Definition same_timing (r1 r2 : TerminalRecorder) : Prop :=
  current_time r1 = current_time r2 /\
  map ev_time (events r1) = map ev_time (events r2).

(** The keys of the dictionary in [color], in the order of the source. *)
Definition color_names : list string :=
  ["red"; "green"; "yellow"; "blue"; "purple"; "cyan"; "bold"; "reset"].

(** ** The demo script *)

(** A statement run on a recorder: it yields a value and leaves the
    recorder mutated. *)
Definition stmt (A : Type) : Type := TerminalRecorder -> A * TerminalRecorder.

#[global] Instance stmt_ret : MRet stmt := fun A a recorder => (a, recorder).

#[global] Instance stmt_bind : MBind stmt :=
  fun A B k m recorder => let '(a, recorder') := m recorder in k a recorder'.

(** The methods, as statements on the recorder in hand; [write] is called
    with its text only, the delay left at its default [0.0]. *)
Module recorder.

Definition write (text : string) : stmt unit :=
  fun self => (tt, write text Float.zero self).

Definition type_text (text : string) (typing_speed : spec_float) : stmt unit :=
  fun self => (tt, type_text text typing_speed self).

Definition pause (duration : spec_float) : stmt unit :=
  fun self => (tt, pause duration self).

Definition clear_screen : stmt unit :=
  fun self => (tt, clear_screen self).

Definition color (text color_code : string) : stmt string :=
  color text color_code.

End recorder.

(** [for x in xs: body]. *)
Fixpoint for_each {A : Type} (xs : list A) (body : A -> stmt unit) : stmt unit :=
  match xs with
  | [] => mret tt
  | x :: xs' => body x ;; for_each xs' body
  end.

(** [enumerate(xs, start)]. *)
Fixpoint enumerate {A : Type} (start : Z) (xs : list A) : list (Z * A) :=
  match xs with
  | [] => []
  | x :: xs' => (start, x) :: enumerate (start + 1) xs'
  end.

(** [range(n)]. *)
Definition range (n : nat) : list Z := map Z.of_nat (seq 0 n).

(** [str(i)], the decimal digits of an integer, as an f-string formats it. *)
Definition str (i : Z) : string := pretty i.

(** [s * n], the text [s] repeated [n] times. *)
Fixpoint str_mul (s : string) (n : nat) : string :=
  match n with
  | O => EmptyString
  | S n' => s +:+ str_mul s n'
  end.

(** The double quote. *)
Definition QUOTE : string := String "034"%char EmptyString.

(** [generate_vibesec_demo].  A call of [recorder.color] inside an
    argument is made before the call it is an argument of, as the
    interpreter evaluates it.  Characters beyond ASCII stand in the texts
    as their UTF-8 bytes; they occur in texts given to [write] only, never
    in a text typed by [type_text]. *)
Definition generate_vibesec_demo : stmt unit :=
  (* Title screen *)
  recorder.clear_screen ;;
  recorder.write (str_mul "═" 60 +:+ NL) ;;
  c1 ← recorder.color ("      VibeSec - Security Scanner for AI Code" +:+ NL) "purple";
  recorder.write c1 ;;
  recorder.write (str_mul "═" 60 +:+ NL +:+ NL) ;;
  recorder.pause (Float.decimal 15 1) ;;
  (* Introduction *)
  c2 ← recorder.color ("Welcome to VibeSec!" +:+ NL) "yellow"; recorder.write c2 ;;
  recorder.write ("Security scanner built for AI-generated code" +:+ NL +:+ NL) ;;
  recorder.write ("This demo shows:" +:+ NL) ;;
  recorder.write ("  1. Complete installation (2 minutes)" +:+ NL) ;;
  recorder.write ("  2. Vulnerability detection in action" +:+ NL) ;;
  recorder.write ("  3. Real examples from AI-generated code" +:+ NL +:+ NL) ;;
  recorder.pause (Float.of_Z 2) ;;
  (* Setup Section *)
  recorder.clear_screen ;;
  c3 ← recorder.color ("▶ Part 1: Installation & Setup" +:+ NL) "blue";
  recorder.write c3 ;;
  recorder.write (str_mul "─" 50 +:+ NL +:+ NL) ;;
  recorder.pause (Float.of_Z 1) ;;
  (* Step 1: Clone repo *)
  c4 ← recorder.color ("Step 1: Clone the repository" +:+ NL) "bold"; recorder.write c4 ;;
  recorder.write NL ;;
  c5 ← recorder.color "$ " "cyan"; recorder.write c5 ;;
  recorder.type_text "git clone https://github.com/ferg-cod3s/vibesec.git" (Float.decimal 4 2) ;;
  recorder.write NL ;;
  recorder.pause (Float.decimal 5 1) ;;
  c6 ← recorder.color ("Cloning into 'vibesec'..." +:+ NL) "green"; recorder.write c6 ;;
  recorder.write ("remote: Counting objects: 100% (234/234), done." +:+ NL) ;;
  recorder.write ("remote: Compressing objects: 100% (156/156), done." +:+ NL) ;;
  recorder.write ("Receiving objects: 100% (234/234), 1.2 MiB, done." +:+ NL) ;;
  recorder.pause (Float.of_Z 1) ;;
  recorder.write NL ;;
  c7 ← recorder.color "$ " "cyan"; recorder.write c7 ;;
  recorder.type_text "cd vibesec" (Float.decimal 4 2) ;;
  recorder.write (NL +:+ NL) ;;
  recorder.pause (Float.decimal 15 1) ;;
  (* Step 2: Install dependencies *)
  c8 ← recorder.color ("Step 2: Install dependencies" +:+ NL) "bold"; recorder.write c8 ;;
  recorder.write NL ;;
  c9 ← recorder.color "$ " "cyan"; recorder.write c9 ;;
  recorder.type_text "bun install" (Float.decimal 4 2) ;;
  recorder.write NL ;;
  recorder.pause (Float.decimal 5 1) ;;
  c10 ← recorder.color ("Installing dependencies..." +:+ NL) "cyan"; recorder.write c10 ;;
  for_each ["typescript"; "@types/node"; "tree-sitter"; "yaml"] (fun pkg =>
    recorder.write ("  + " +:+ pkg +:+ NL) ;;
    recorder.pause (Float.decimal 2 1)) ;;
  recorder.write NL ;;
  c11 ← recorder.color ("✓ Installation complete!" +:+ NL) "green"; recorder.write c11 ;;
  recorder.write ("46 packages installed" +:+ NL +:+ NL) ;;
  recorder.pause (Float.decimal 15 1) ;;
  (* Step 3: Configure MCP *)
  recorder.clear_screen ;;
  c12 ← recorder.color ("▶ Part 1: Installation & Setup (continued)" +:+ NL) "blue";
  recorder.write c12 ;;
  recorder.write (str_mul "─" 50 +:+ NL +:+ NL) ;;
  c13 ← recorder.color ("Step 3: Configure Claude Code" +:+ NL) "bold";
  recorder.write c13 ;;
  recorder.write NL ;;
  recorder.write ("Add VibeSec to your Claude Code MCP servers:" +:+ NL +:+ NL) ;;
  c14 ← recorder.color "$ " "cyan"; recorder.write c14 ;;
  recorder.type_text "nano ~/.claude/mcp.json" (Float.decimal 4 2) ;;
  recorder.write (NL +:+ NL) ;;
  recorder.pause (Float.decimal 8 1) ;;
  c15 ← recorder.color ("# Add this configuration:" +:+ NL) "yellow"; recorder.write c15 ;;
  recorder.write ("{" +:+ NL) ;;
  recorder.write ("  " +:+ QUOTE +:+ "mcpServers" +:+ QUOTE +:+ ": {" +:+ NL) ;;
  recorder.write ("    " +:+ QUOTE +:+ "vibesec" +:+ QUOTE +:+ ": {" +:+ NL) ;;
  recorder.write ("      " +:+ QUOTE +:+ "command" +:+ QUOTE +:+ ": "
                  +:+ QUOTE +:+ "bun" +:+ QUOTE +:+ "," +:+ NL) ;;
  recorder.write ("      " +:+ QUOTE +:+ "args" +:+ QUOTE +:+ ": ["
                  +:+ QUOTE +:+ "run" +:+ QUOTE +:+ ", "
                  +:+ QUOTE +:+ "/path/to/vibesec/bin/vibesec-mcp" +:+ QUOTE +:+ "]" +:+ NL) ;;
  recorder.write ("    }" +:+ NL) ;;
  recorder.write ("  }" +:+ NL) ;;
  recorder.write ("}" +:+ NL +:+ NL) ;;
  recorder.pause (Float.of_Z 2) ;;
  c16 ← recorder.color ("✓ Configuration saved!" +:+ NL) "green"; recorder.write c16 ;;
  recorder.pause (Float.of_Z 1) ;;
  (* Step 4: Restart Claude Code *)
  recorder.write NL ;;
  c17 ← recorder.color ("Step 4: Restart Claude Code" +:+ NL) "bold"; recorder.write c17 ;;
  recorder.write NL ;;
  recorder.write ("Close and reopen Claude Code to load VibeSec..." +:+ NL +:+ NL) ;;
  recorder.pause (Float.decimal 15 1) ;;
  c18 ← recorder.color ("✓ Setup complete!" +:+ NL) "green"; recorder.write c18 ;;
  recorder.write (NL +:+ "VibeSec is now available in Claude Code" +:+ NL +:+ NL) ;;
  recorder.pause (Float.of_Z 2) ;;
  (* Verification *)
  recorder.clear_screen ;;
  c19 ← recorder.color ("▶ Verify Installation" +:+ NL) "blue"; recorder.write c19 ;;
  recorder.write (str_mul "─" 50 +:+ NL +:+ NL) ;;
  recorder.write ("In Claude Code, ask:" +:+ NL) ;;
  c20 ← recorder.color
          ("  " +:+ QUOTE +:+ "What MCP tools do you have?" +:+ QUOTE +:+ NL +:+ NL) "cyan";
  recorder.write c20 ;;
  recorder.pause (Float.of_Z 1) ;;
  recorder.write ("Claude responds:" +:+ NL) ;;
  c21 ← recorder.color ("  I have access to these MCP tools:" +:+ NL) "green";
  recorder.write c21 ;;
  recorder.write ("  • vibesec_scan - Scan code for security vulnerabilities" +:+ NL) ;;
  recorder.write ("  • vibesec_list_rules - List available detection rules" +:+ NL +:+ NL) ;;
  recorder.pause (Float.of_Z 2) ;;
  c22 ← recorder.color ("✓ VibeSec is ready to use!" +:+ NL +:+ NL) "green";
  recorder.write c22 ;;
  recorder.pause (Float.of_Z 2) ;;
  (* Transition to demo *)
  recorder.clear_screen ;;
  c23 ← recorder.color ("▶ Part 2: VibeSec in Action" +:+ NL) "blue"; recorder.write c23 ;;
  recorder.write (str_mul "─" 50 +:+ NL +:+ NL) ;;
  recorder.write ("Let's see VibeSec catch real vulnerabilities..." +:+ NL +:+ NL) ;;
  recorder.pause (Float.decimal 15 1) ;;
  (* What VibeSec Detects *)
  c24 ← recorder.color ("What VibeSec Detects:" +:+ NL) "bold"; recorder.write c24 ;;
  recorder.write NL ;;
  let vulnerabilities :=
    [ "Hardcoded secrets & API keys";
      "SQL injection vulnerabilities";
      "Command injection risks";
      "Missing authentication";
      "Incomplete implementations" ] in
  for_each vulnerabilities (fun vuln =>
    c25 ← recorder.color "✗" "red";
    recorder.write ("  " +:+ c25 +:+ " " +:+ vuln +:+ NL) ;;
    recorder.pause (Float.decimal 4 1)) ;;
  recorder.pause (Float.of_Z 2) ;;
  (* Demo 1: List Rules *)
  recorder.clear_screen ;;
  c26 ← recorder.color ("▶ Part 2: VibeSec in Action" +:+ NL) "blue"; recorder.write c26 ;;
  recorder.write (str_mul "─" 50 +:+ NL +:+ NL) ;;
  c27 ← recorder.color ("Demo 1: List Available Security Rules" +:+ NL) "bold";
  recorder.write c27 ;;
  recorder.write NL ;;
  c28 ← recorder.color "$ " "cyan"; recorder.write c28 ;;
  recorder.type_text "vibesec list-rules --category secrets" (Float.decimal 4 2) ;;
  recorder.write (NL +:+ NL) ;;
  recorder.pause (Float.of_Z 1) ;;
  c29 ← recorder.color ("Found 3 secret detection rules:" +:+ NL +:+ NL) "green";
  recorder.write c29 ;;
  let rules :=
    [ ("Hardcoded API Key Detection", "secrets", "critical", "OpenAI, AWS, Stripe tokens");
      ("Hardcoded Password Detection", "secrets", "critical", "Database credentials");
      ("Private Key in Source Code", "secrets", "critical", "RSA/SSH private keys") ] in
  for_each (enumerate 1 rules) (fun '(i, (name, cat, sev, desc)) =>
    recorder.write ("  " +:+ str i +:+ ". " +:+ name +:+ NL) ;;
    recorder.write ("     Category: " +:+ cat +:+ " | Severity: " +:+ sev +:+ NL) ;;
    recorder.write ("     Detects: " +:+ desc +:+ NL +:+ NL) ;;
    recorder.pause (Float.decimal 8 1)) ;;
  recorder.pause (Float.of_Z 2) ;;
  (* Demo 2: Scan Hardcoded Secrets *)
  recorder.clear_screen ;;
  c30 ← recorder.color ("▶ Part 2: VibeSec in Action (continued)" +:+ NL) "blue";
  recorder.write c30 ;;
  recorder.write (str_mul "─" 50 +:+ NL +:+ NL) ;;
  c31 ← recorder.color ("Demo 2: Scan Code with Hardcoded Secrets" +:+ NL) "bold";
  recorder.write c31 ;;
  recorder.write NL ;;
  recorder.write ("Let's scan a file with security issues..." +:+ NL +:+ NL) ;;
  recorder.pause (Float.of_Z 1) ;;
  c32 ← recorder.color "$ " "cyan"; recorder.write c32 ;;
  recorder.type_text "cat demo-examples/vulnerable-secrets.ts" (Float.decimal 4 2) ;;
  recorder.write (NL +:+ NL) ;;
  recorder.pause (Float.decimal 5 1) ;;
  (* Show vulnerable code *)
  c33 ← recorder.color ("// Demo code with hardcoded secrets" +:+ NL) "yellow";
  recorder.write c33 ;;
  recorder.write ("export const config = {" +:+ NL) ;;
  c34 ← recorder.color "apiKey: 'sk-1234567890abcdef...'," "red";
  recorder.write ("  " +:+ c34 +:+ NL +:+ NL) ;;
  recorder.write ("  database: {" +:+ NL) ;;
  recorder.write ("    host: 'localhost'," +:+ NL) ;;
  c35 ← recorder.color "password: 'admin123'," "red";
  recorder.write ("    " +:+ c35 +:+ NL) ;;
  recorder.write ("  }," +:+ NL +:+ NL) ;;
  recorder.write ("  jwt: {" +:+ NL) ;;
  c36 ← recorder.color "secret: 'my-super-secret-key'," "red";
  recorder.write ("    " +:+ c36 +:+ NL) ;;
  recorder.write ("  }," +:+ NL) ;;
  recorder.write ("};" +:+ NL +:+ NL) ;;
  recorder.pause (Float.of_Z 2) ;;
  (* Run scan *)
  c37 ← recorder.color "$ " "cyan"; recorder.write c37 ;;
  recorder.type_text "vibesec scan demo-examples/vulnerable-secrets.ts" (Float.decimal 4 2) ;;
  recorder.write (NL +:+ NL) ;;
  recorder.pause (Float.of_Z 1) ;;
  c38 ← recorder.color "Scanning..." "cyan"; recorder.write c38 ;;
  for_each (range 3) (fun _ =>
    recorder.write "." ;;
    recorder.pause (Float.decimal 3 1)) ;;
  recorder.write (NL +:+ NL) ;;
  recorder.pause (Float.decimal 5 1) ;;
  (* Show results *)
  c39 ← recorder.color ("✗ Found 7 critical vulnerabilities:" +:+ NL +:+ NL) "red";
  recorder.write c39 ;;
  let findings :=
    [ ("Hardcoded API Key Detected", "line 11", "API key exposed in version control");
      ("Hardcoded Database Password", "line 16", "Database access compromised");
      ("Hardcoded JWT Secret", "line 22", "Auth tokens can be forged") ] in
  for_each (enumerate 1 findings) (fun '(i, (title, location, risk)) =>
    c40 ← recorder.color ("[" +:+ str i +:+ "] " +:+ title +:+ NL) "red";
    recorder.write c40 ;;
    recorder.write ("    File: demo-examples/vulnerable-secrets.ts:" +:+ location +:+ NL) ;;
    recorder.write ("    Risk: " +:+ risk +:+ NL +:+ NL) ;;
    recorder.pause (Float.decimal 12 1)) ;;
  c41 ← recorder.color ("[4-7] Additional secrets found..." +:+ NL +:+ NL) "yellow";
  recorder.write c41 ;;
  recorder.pause (Float.of_Z 2) ;;
  (* Demo 3: SQL Injection *)
  recorder.clear_screen ;;
  c42 ← recorder.color ("▶ Part 2: VibeSec in Action (continued)" +:+ NL) "blue";
  recorder.write c42 ;;
  recorder.write (str_mul "─" 50 +:+ NL +:+ NL) ;;
  c43 ← recorder.color ("Demo 3: Scan for SQL Injection" +:+ NL) "bold";
  recorder.write c43 ;;
  recorder.write NL ;;
  c44 ← recorder.color "$ " "cyan"; recorder.write c44 ;;
  recorder.type_text "cat demo-examples/vulnerable-api.ts" (Float.decimal 4 2) ;;
  recorder.write (NL +:+ NL) ;;
  recorder.pause (Float.decimal 5 1) ;;
  c45 ← recorder.color ("// API endpoint with SQL injection" +:+ NL) "yellow";
  recorder.write c45 ;;
  recorder.write ("app.get('/users', (req, res) => {" +:+ NL) ;;
  recorder.write ("  const name = req.query.name;" +:+ NL) ;;
  c46 ← recorder.color "const query = `SELECT * FROM users WHERE name = '${name}'`;" "red";
  recorder.write ("  " +:+ c46 +:+ NL) ;;
  recorder.write ("  db.query(query, ...)" +:+ NL) ;;
  recorder.write ("});" +:+ NL +:+ NL) ;;
  recorder.pause (Float.of_Z 2) ;;
  c47 ← recorder.color "$ " "cyan"; recorder.write c47 ;;
  recorder.type_text "vibesec scan demo-examples/vulnerable-api.ts" (Float.decimal 4 2) ;;
  recorder.write (NL +:+ NL) ;;
  recorder.pause (Float.of_Z 1) ;;
  c48 ← recorder.color ("Scanning..." +:+ NL +:+ NL) "cyan"; recorder.write c48 ;;
  recorder.pause (Float.decimal 5 1) ;;
  c49 ← recorder.color ("✗ Found 2 critical vulnerabilities:" +:+ NL +:+ NL) "red";
  recorder.write c49 ;;
  c50 ← recorder.color ("[1] SQL Injection via String Concatenation" +:+ NL) "red";
  recorder.write c50 ;;
  recorder.write ("    File: demo-examples/vulnerable-api.ts:14" +:+ NL) ;;
  recorder.write ("    Risk: Attacker can inject malicious SQL" +:+ NL +:+ NL) ;;
  recorder.write ("    Fix: Use parameterized queries:" +:+ NL) ;;
  c51 ← recorder.color "const query = 'SELECT * FROM users WHERE name = ?';" "green";
  recorder.write ("    " +:+ c51 +:+ NL) ;;
  c52 ← recorder.color "db.query(query, [name], ...);" "green";
  recorder.write ("    " +:+ c52 +:+ NL +:+ NL) ;;
  recorder.pause (Float.of_Z 2) ;;
  (* Summary *)
  recorder.clear_screen ;;
  c53 ← recorder.color ("▶ Summary" +:+ NL) "blue"; recorder.write c53 ;;
  recorder.write (str_mul "─" 50 +:+ NL +:+ NL) ;;
  c54 ← recorder.color ("What we just did:" +:+ NL) "bold"; recorder.write c54 ;;
  recorder.write ("  1. Installed VibeSec in 2 minutes" +:+ NL) ;;
  recorder.write ("  2. Configured Claude Code integration" +:+ NL) ;;
  recorder.write ("  3. Scanned code and found 9 critical vulnerabilities" +:+ NL +:+ NL) ;;
  recorder.pause (Float.decimal 15 1) ;;
  c55 ← recorder.color ("Results:" +:+ NL) "bold"; recorder.write c55 ;;
  c56 ← recorder.color "✓" "green";
  recorder.write ("  " +:+ c56 +:+ " Scanned 2 files" +:+ NL) ;;
  c57 ← recorder.color "✗" "red";
  recorder.write ("  " +:+ c57 +:+ " Found 9 critical vulnerabilities" +:+ NL) ;;
  c58 ← recorder.color "⚠" "yellow";
  recorder.write ("  " +:+ c58 +:+ " Found 3 high-severity issues" +:+ NL) ;;
  c59 ← recorder.color "12/100" "red";
  recorder.write ("  Security Score: " +:+ c59 +:+ " (Poor)" +:+ NL +:+ NL) ;;
  recorder.pause (Float.decimal 15 1) ;;
  (* Why VibeSec *)
  c60 ← recorder.color ("Why VibeSec?" +:+ NL +:+ NL) "bold"; recorder.write c60 ;;
  let features :=
    [ "✓ 2-minute setup";
      "✓ Built for AI-generated code";
      "✓ Integrates with Claude Code via MCP";
      "✓ Catches patterns AI assistants miss";
      "✓ Works in your workflow";
      "✓ 100% local - code never leaves your machine" ] in
  for_each features (fun feature =>
    recorder.write ("  " +:+ feature +:+ NL) ;;
    recorder.pause (Float.decimal 3 1)) ;;
  recorder.pause (Float.of_Z 2) ;;
  (* End screen - Get Started *)
  recorder.clear_screen ;;
  recorder.write (NL +:+ NL) ;;
  recorder.write (str_mul "═" 60 +:+ NL) ;;
  c61 ← recorder.color ("           Code Fast. Code Safe. 🚀" +:+ NL) "green";
  recorder.write c61 ;;
  recorder.write (str_mul "═" 60 +:+ NL +:+ NL) ;;
  c62 ← recorder.color ("VibeSec - Security Scanner for AI-Generated Code" +:+ NL +:+ NL) "bold";
  recorder.write c62 ;;
  c63 ← recorder.color ("Get Started:" +:+ NL) "bold"; recorder.write c63 ;;
  recorder.write ("  1. git clone https://github.com/ferg-cod3s/vibesec.git" +:+ NL) ;;
  recorder.write ("  2. cd vibesec && bun install" +:+ NL) ;;
  recorder.write ("  3. Configure ~/.claude/mcp.json" +:+ NL) ;;
  recorder.write ("  4. Restart Claude Code" +:+ NL +:+ NL) ;;
  c64 ← recorder.color ("Learn More:" +:+ NL) "bold"; recorder.write c64 ;;
  recorder.write ("  ⭐ GitHub: github.com/ferg-cod3s/vibesec" +:+ NL) ;;
  recorder.write ("  📖 Documentation: See README.md" +:+ NL) ;;
  recorder.write ("  💬 MIT License - Free & Open Source" +:+ NL +:+ NL) ;;
  c65 ← recorder.color ("Total setup time: 2 minutes" +:+ NL) "cyan"; recorder.write c65 ;;
  recorder.pause (Float.of_Z 3).


(** A call is well formed, decided. *)
Definition arg_okb (d : spec_float) : bool :=
  valid_binary Float.prec Float.emax d && Float.leb Float.zero d.

Definition call_okb (c : call) : bool :=
  match c with
  | DoWrite _ d | DoTypeText _ d | DoPause d => arg_okb d
  | DoClearScreen => true
  end.

(** A statement that yields [a] and acts on every recorder as the script
    [cs] does. *)
Definition acts_as {A : Type} (m : stmt A) (a : A) (cs : list call) : Prop :=
  forall r, m r = (a, run cs r).

(** ** The command line *)

(** The namespace [parser.parse_args()] returns; [argparse] belongs to the
    interpreter's library and [main] is given its result. *)
Module args.

Record t : Type := {
  format : string;
  output : string;
  width : Z;
  height : Z
}.

(** The defaults of the four options. *)
Definition default : t :=
  {| format := "cast"; output := "vibesec-demo.cast"; width := 80; height := 24 |}.

End args.

(** What the program leaves behind: the lines it printed and the files,
    each with its text. *)
Record world : Type := {
  stdout : list string;
  files : gmap string string
}.

(** [print(line)]. *)
Definition print (line : string) (w : world) : world :=
  {| stdout := stdout w ++ [line]; files := files w |}.

(** A run ends or is left by an [OSError] that nothing catches. *)
Inductive result : Type :=
| Done (w : world)
| Raised_OSError (w : world).

Definition world_of (res : result) : world :=
  match res with
  | Done w | Raised_OSError w => w
  end.

Section Main.

(** [json.dumps], the value [int(time.time())] has at the call, and the
    paths [open(path, "w")] opens; on any other path it raises [OSError]
    and leaves the files as they are.  The writes to an open file are
    taken to succeed. *)
Variable dumps : json -> string.
Variable now : Z.
Variable writable : string -> bool.

(** [TerminalRecorder.save_asciicast] with its effects: the file and the
    four lines it prints once the file is closed. *)
Definition save_asciicast_to (self : TerminalRecorder) (filename : string)
    (w : world) : result :=
  if writable filename then
    let w := {| stdout := stdout w;
                files := <[filename := save_asciicast dumps self now]> (files w) |} in
    let w := print ("✓ Saved asciinema recording to " +:+ filename) w in
    let w := print ("  View with: asciinema play " +:+ filename) w in
    let w := print ("  Upload to: asciinema upload " +:+ filename) w in
    let w := print ("  Convert to GIF: agg " +:+ filename +:+ " output.gif") w in
    Done w
  else Raised_OSError w.

(** [main]. *)
Definition main (a : args.t) (w : world) : result :=
  (* Create recorder *)
  let recorder := init (args.width a) (args.height a) in
  (* Generate demo *)
  let w := print "Generating VibeSec demo..." w in
  let recorder := snd (generate_vibesec_demo recorder) in
  (* Save output *)
  if String.eqb (args.format a) "cast" then
    match save_asciicast_to recorder (args.output a) w with
    | Done w =>
        let w := print (NL +:+ "Next steps:") w in
        let w := print ("  1. View: asciinema play " +:+ args.output a) w in
        let w := print ("  2. Upload: asciinema upload " +:+ args.output a) w in
        let w := print ("  3. Convert to GIF: agg " +:+ args.output a
                        +:+ " vibesec-demo.gif") w in
        let w := print ("  4. Convert to SVG: svg-term --in " +:+ args.output a
                        +:+ " --out demo.svg") w in
        Done w
    | Raised_OSError w => Raised_OSError w
    end
  else if String.eqb (args.format a) "svg" then
    let w := print "SVG output not yet implemented. Use cast format and convert:" w in
    let w := print ("  svg-term --in " +:+ args.output a +:+ " --out vibesec-demo.svg") w in
    Done w
  else Done w.

End Main.

(** * Properties *)

(** ** Float addition

    The rounding of [SFadd], followed through its shifts: the sum of a
    non-negative float [x] and a non-negative float [d], both of the
    format, is a float of the format and is not below [x]. *)
Module FloatFacts.
Import Float.

Abbreviation fexp := (SpecFloat.fexp prec emax).

(** The kinds of a float: zero, infinity, NaN or finite, with its sign. *)
Ltac float_cases x :=
  let s := fresh "s" in
  destruct x as [s|s| |s ? ?]; try destruct s.

(** The number of bits of a significand. *)
Lemma digits2_size p : digits2_pos p = Pos.size p.
Proof. induction p; simpl; congruence. Qed.

Lemma digits2_log2 p : Zpos (digits2_pos p) = Z.log2 (Zpos p) + 1.
Proof. rewrite digits2_size. destruct p; simpl; lia. Qed.

Lemma digits2_bounds p :
  2 ^ (Zpos (digits2_pos p) - 1) <= Zpos p < 2 ^ Zpos (digits2_pos p).
Proof.
  rewrite digits2_log2.
  replace (Z.log2 (Zpos p) + 1 - 1) with (Z.log2 (Zpos p)) by lia.
  apply (Z.log2_spec (Zpos p)). lia.
Qed.

Lemma digits2_le p q : Zpos p <= Zpos q -> Zpos (digits2_pos p) <= Zpos (digits2_pos q).
Proof. intros H. rewrite !digits2_log2. apply Z.log2_le_mono in H. lia. Qed.

Lemma iter_xO_val n p : Zpos (Pos.iter xO p n) = Zpos p * 2 ^ Zpos n.
Proof.
  revert p. induction n using Pos.peano_ind; intros p.
  - simpl. lia.
  - rewrite Pos.iter_succ. rewrite Pos2Z.inj_succ, Z.pow_succ_r by lia.
    rewrite Pos2Z.inj_xO, IHn. lia.
Qed.

Lemma digits2_mul_pow2 p q n :
  0 <= n -> Zpos q = Zpos p * 2 ^ n -> Zpos (digits2_pos q) = Zpos (digits2_pos p) + n.
Proof.
  intros Hn H. rewrite !digits2_log2, H, Z.log2_mul_pow2 by lia. lia.
Qed.

(** Shifting right by [n] bits halves the significand [n] times. *)
Lemma shr_1_m mrs : 0 <= shr_m mrs -> shr_m (shr_1 mrs) = shr_m mrs / 2.
Proof.
  destruct mrs as [m r s]. simpl. intros Hm.
  destruct m as [|[p|p|]|p]; simpl; try lia; try reflexivity.
  - apply Z.div_unique with 1; lia.
  - apply Z.div_unique with 0; lia.
Qed.

Lemma iter_shr_1_m n : forall mrs,
  0 <= shr_m mrs -> shr_m (SpecFloat.iter_pos shr_1 n mrs) = shr_m mrs / 2 ^ Zpos n.
Proof.
  induction n as [n IH|n IH|]; intros mrs Hm; simpl SpecFloat.iter_pos.
  - assert (H1 : 0 <= shr_m (shr_1 mrs)) by (rewrite shr_1_m by easy; apply Z.div_pos; lia).
    assert (H2 : 0 <= shr_m (SpecFloat.iter_pos shr_1 n (shr_1 mrs)))
      by (rewrite IH by easy; apply Z.div_pos; lia).
    rewrite IH, IH, shr_1_m by easy.
    rewrite !Z.div_div by lia. f_equal.
    replace (Zpos n~1) with (1 + Zpos n + Zpos n) by lia.
    rewrite !Z.pow_add_r by lia. ring.
  - assert (H2 : 0 <= shr_m (SpecFloat.iter_pos shr_1 n mrs))
      by (rewrite IH by easy; apply Z.div_pos; lia).
    rewrite IH, IH by easy.
    rewrite !Z.div_div by lia. f_equal.
    replace (Zpos n~0) with (Zpos n + Zpos n) by lia.
    rewrite !Z.pow_add_r by lia. ring.
  - rewrite shr_1_m by easy. reflexivity.
Qed.

Lemma fexp_eq e : fexp e = Z.max (e - 53) (-1074).
Proof. reflexivity. Qed.

Lemma digits2_unique p d :
  2 ^ (d - 1) <= Zpos p < 2 ^ d -> Zpos (digits2_pos p) = d.
Proof.
  intros H. rewrite digits2_log2.
  assert (Hd : 0 < d).
  { destruct (Z.ltb_spec 0 d) as [|Hd]; [easy|].
    rewrite (Z.pow_neg_r 2 (d - 1)) in H by lia.
    assert (2 ^ d <= 1); [|lia].
    destruct (Z.eq_dec d 0) as [->|]; [simpl; lia|].
    rewrite Z.pow_neg_r by lia. lia. }
  rewrite (Z.log2_unique (Zpos p) (d - 1)); [lia|lia|].
  replace (Z.succ (d - 1)) with d by lia. exact H.
Qed.

Lemma round_nearest_even_bounds m l :
  m <= round_nearest_even m l <= m + 1.
Proof.
  destruct l as [|[]]; simpl; try lia.
  destruct (Z.even m); lia.
Qed.

Lemma shr_fexp_noshift m e :
  fexp (Zpos (digits2_pos m) + e) = e ->
  shr_fexp prec emax (Zpos m) e loc_Exact
  = ({| shr_m := Zpos m; shr_r := false; shr_s := false |}, e).
Proof.
  intros H. unfold shr_fexp. simpl Zdigits2. rewrite H, Z.sub_diag. reflexivity.
Qed.

Lemma shr_fexp_shift m e n :
  fexp (Zpos (digits2_pos m) + e) - e = Zpos n ->
  shr_fexp prec emax (Zpos m) e loc_Exact
  = (SpecFloat.iter_pos shr_1 n {| shr_m := Zpos m; shr_r := false; shr_s := false |}, e + Zpos n).
Proof.
  intros H. unfold shr_fexp. simpl Zdigits2. rewrite H. reflexivity.
Qed.

Lemma bounded_intro m e :
  fexp (Zpos (digits2_pos m) + e) = e -> e <= 971 ->
  bounded prec emax m e = true.
Proof.
  intros H1 H2. unfold bounded, canonical_mantissa.
  rewrite H1, Z.eqb_refl. simpl. apply Z.leb_le. exact H2.
Qed.

Lemma bounded_elim m e :
  bounded prec emax m e = true ->
  fexp (Zpos (digits2_pos m) + e) = e /\ e <= 971.
Proof.
  unfold bounded, canonical_mantissa. intros H.
  apply andb_true_iff in H. destruct H as [H1 H2].
  apply Z.eqb_eq in H1. apply Z.leb_le in H2. split; [exact H1|exact H2].
Qed.

(** Rounding an exact positive value [M * 2^e] whose exponent is not below
    the least exponent of the format. *)
Lemma binary_round_pos M e :
  -1074 <= e ->
  let e1 := fexp (Zpos (digits2_pos M) + e) in
  binary_round prec emax false M e = S754_infinity false \/
  exists m' e',
    binary_round prec emax false M e = S754_finite false m' e' /\
    bounded prec emax m' e' = true /\
    ((e1 <= e /\ e' = e1 /\ Zpos m' = Zpos M * 2 ^ (e - e1)) \/
     (e < e1 /\ e' = e1 /\ Zpos M / 2 ^ (e1 - e) <= Zpos m') \/
     (e < e1 /\ e' = e1 + 1)).
Proof.
  intros He e1. unfold binary_round. fold e1.
  destruct (Z.compare_spec e1 e) as [Heq|Hlt|Hgt].
  - (* no alignment, no shift *)
    unfold shl_align. rewrite Heq, Z.sub_diag.
    assert (Hc : fexp (Zpos (digits2_pos M) + e) = e) by (subst e1; exact Heq).
    unfold binary_round_aux. rewrite (shr_fexp_noshift M e Hc). simpl shr_m.
    simpl loc_of_shr_record. simpl round_nearest_even.
    rewrite (shr_fexp_noshift M e Hc). simpl shr_m.
    destruct (Z.leb_spec e (emax - prec)) as [Hle|Hgt]; [right|left; reflexivity].
    exists M, e. split; [reflexivity|]. split.
    + apply bounded_intro; [exact Hc|]. unfold emax, prec in Hle. lia.
    + left. rewrite Z.pow_0_r. lia.
  - (* the significand is shifted left to the canonical exponent *)
    unfold shl_align.
    destruct (e1 - e) as [|d|d] eqn:Hd; try lia.
    set (mz := Pos.iter xO M d).
    assert (Hmz : Zpos mz = Zpos M * 2 ^ Zpos d) by apply iter_xO_val.
    assert (Hdig : Zpos (digits2_pos mz) = Zpos (digits2_pos M) + Zpos d)
      by (apply digits2_mul_pow2; [lia|exact Hmz]).
    assert (Hc : fexp (Zpos (digits2_pos mz) + e1) = e1).
    { rewrite Hdig. replace (Zpos (digits2_pos M) + Zpos d + e1)
        with (Zpos (digits2_pos M) + e) by lia. reflexivity. }
    unfold binary_round_aux. rewrite (shr_fexp_noshift mz e1 Hc). simpl shr_m.
    simpl loc_of_shr_record. simpl round_nearest_even.
    rewrite (shr_fexp_noshift mz e1 Hc). simpl shr_m.
    destruct (Z.leb_spec e1 (emax - prec)) as [Hle|Hgt]; [right|left; reflexivity].
    exists mz, e1. split; [reflexivity|]. split.
    + apply bounded_intro; [exact Hc|]. unfold emax, prec in Hle. lia.
    + left. split; [lia|]. split; [reflexivity|].
      rewrite Hmz. f_equal. f_equal. lia.
  - (* the significand is shifted right and rounded *)
    unfold shl_align.
    destruct (e1 - e) as [|n|n] eqn:Hn; try lia.
    assert (He1 : e1 = Zpos (digits2_pos M) + e - 53).
    { subst e1. rewrite fexp_eq in *. lia. }
    unfold binary_round_aux.
    rewrite (shr_fexp_shift M e n) by (fold e1; exact Hn).
    set (mrs := SpecFloat.iter_pos shr_1 n {| shr_m := Zpos M; shr_r := false; shr_s := false |}).
    assert (Hm : shr_m mrs = Zpos M / 2 ^ Zpos n)
      by (unfold mrs; rewrite iter_shr_1_m; simpl; [reflexivity|lia]).
    assert (Hb : 2 ^ 52 <= shr_m mrs < 2 ^ 53).
    { rewrite Hm. pose proof (digits2_bounds M) as HM.
      replace (Zpos (digits2_pos M)) with (53 + Zpos n) in HM by lia.
      replace (53 + Zpos n - 1) with (52 + Zpos n) in HM by lia.
      rewrite !Z.pow_add_r in HM by lia.
      split.
      - apply Z.div_le_lower_bound; lia.
      - apply Z.div_lt_upper_bound; lia. }
    pose proof (round_nearest_even_bounds (shr_m mrs) (loc_of_shr_record mrs)) as Hr.
    set (mr := round_nearest_even (shr_m mrs) (loc_of_shr_record mrs)) in *.
    replace (e + Zpos n) with e1 by lia.
    destruct mr as [|q|q] eqn:Hq; try lia.
    destruct (Z.ltb_spec (Zpos q) (2 ^ 53)) as [Hsmall|Hbig].
    + assert (Hdq : Zpos (digits2_pos q) = 53) by (apply digits2_unique; simpl Z.sub; lia).
      assert (Hc : fexp (Zpos (digits2_pos q) + e1) = e1)
        by (rewrite Hdq, fexp_eq; lia).
      rewrite (shr_fexp_noshift q e1 Hc). simpl shr_m.
      destruct (Z.leb_spec e1 (emax - prec)) as [Hle|Hgt']; [right|left; reflexivity].
      exists q, e1. split; [reflexivity|]. split.
      * apply bounded_intro; [exact Hc|]. unfold emax, prec in Hle. lia.
      * right. left. split; [lia|]. split; [reflexivity|].
        replace (e1 - e) with (Zpos n) by lia. rewrite <- Hm. lia.
    + assert (Hq2 : Zpos q = 2 ^ 53) by lia.
      assert (Hdq : Zpos (digits2_pos q) = 54).
      { apply digits2_unique. rewrite Hq2. simpl Z.sub. split; [lia|].
        apply Z.pow_lt_mono_r; lia. }
      assert (Hs : fexp (Zpos (digits2_pos q) + e1) - e1 = 1)
        by (rewrite Hdq, fexp_eq; lia).
      rewrite (shr_fexp_shift q e1 1 Hs). cbv [SpecFloat.iter_pos]. cbv beta iota.
      rewrite shr_1_m by (simpl; lia). simpl shr_m. rewrite Hq2.
      change (2 ^ 53 / 2) with (Zpos 4503599627370496).
      destruct (Z.leb_spec (e1 + 1) (emax - prec)) as [Hle|Hgt']; [right|left; reflexivity].
      exists 4503599627370496%positive, (e1 + 1). split; [reflexivity|]. split.
      * apply bounded_intro; [|unfold emax, prec in Hle; lia].
        change (Zpos (digits2_pos 4503599627370496)) with 53.
        rewrite fexp_eq; lia.
      * right. right. split; [lia|reflexivity].
Qed.

Lemma shl_align_fst mx ex ez :
  ez <= ex -> Zpos (fst (shl_align mx ex ez)) = Zpos mx * 2 ^ (ex - ez).
Proof.
  intros H. unfold shl_align.
  destruct (ez - ex) as [|d|d] eqn:Hd; try lia.
  - replace (ex - ez) with 0 by lia. simpl. lia.
  - simpl fst. rewrite iter_xO_val. f_equal. f_equal. lia.
Qed.

Lemma leb_finite_pos m1 e1 m2 e2 :
  e1 < e2 \/ (e1 = e2 /\ Zpos m1 <= Zpos m2) ->
  leb (S754_finite false m1 e1) (S754_finite false m2 e2) = true.
Proof.
  intros H. unfold leb, SFleb, SFcompare.
  destruct (Z.compare_spec e1 e2) as [He|He|He].
  - change (Pos.compare_cont Eq m1 m2) with (Pos.compare m1 m2).
    destruct (Pos.compare_spec m1 m2); try reflexivity. lia.
  - reflexivity.
  - lia.
Qed.

(** [<=] on floats is transitive, and reflexive away from NaN. *)
Lemma leb_trans a b c : leb a b = true -> leb b c = true -> leb a c = true.
Proof.
  unfold leb, SFleb, SFcompare.
  destruct a as [sa|sa| |sa ma ea], b as [sb|sb| |sb mb eb], c as [sc|sc| |sc mc ec];
    try destruct sa; try destruct sb; try destruct sc; try easy;
    change (Pos.compare_cont Eq ?x ?y) with (Pos.compare x y);
    destruct (Z.compare_spec ea eb), (Z.compare_spec eb ec), (Z.compare_spec ea ec);
    try lia; try easy;
    destruct (Pos.compare_spec ma mb), (Pos.compare_spec mb mc), (Pos.compare_spec ma mc);
    try lia; try easy.
Qed.

Lemma leb_refl x : x <> S754_nan -> leb x x = true.
Proof.
  intros Hn. unfold leb, SFleb, SFcompare.
  float_cases x; try easy;
    rewrite Z.compare_refl;
    change (Pos.compare_cont Eq ?m ?m) with (Pos.compare m m);
    rewrite Pos.compare_refl; reflexivity.
Qed.

(** The sum of two positive finite floats. *)
Lemma add_finite_pos mx ex my ey :
  bounded prec emax mx ex = true -> bounded prec emax my ey = true ->
  let r := add (S754_finite false mx ex) (S754_finite false my ey) in
  valid r /\ nonneg r /\ leb (S754_finite false mx ex) r = true.
Proof.
  intros Hx Hy.
  apply bounded_elim in Hx. destruct Hx as [Hcx Hbx].
  apply bounded_elim in Hy. destruct Hy as [Hcy Hby].
  assert (Hex : -1074 <= ex) by (rewrite fexp_eq in Hcx; lia).
  assert (Hey : -1074 <= ey) by (rewrite fexp_eq in Hcy; lia).
  unfold add, SFadd. set (ez := Z.min ex ey).
  unfold cond_Zopp.
  pose proof (shl_align_fst mx ex ez ltac:(lia)) as Ha.
  pose proof (shl_align_fst my ey ez ltac:(lia)) as Hb.
  set (a := fst (shl_align mx ex ez)) in *.
  set (b := fst (shl_align my ey ez)) in *.
  change (Zpos a + Zpos b) with (Zpos (a + b)).
  unfold binary_normalize.
  assert (Hez : -1074 <= ez) by lia.
  pose proof (binary_round_pos (a + b) ez Hez) as Hr. cbv zeta in Hr.
  set (e1 := fexp (Zpos (digits2_pos (a + b)) + ez)) in *.
  assert (He1 : ex <= e1).
  { assert (Hd : Zpos (digits2_pos mx) + (ex - ez) <= Zpos (digits2_pos (a + b))).
    { rewrite <- (digits2_mul_pow2 mx a (ex - ez)) by (lia || exact Ha).
      apply digits2_le. lia. }
    unfold e1. rewrite <- Hcx. rewrite !fexp_eq. lia. }
  destruct Hr as [Hr|(m' & e' & Hr & Hbd & Hcase)]; rewrite Hr.
  - split; [reflexivity|]. split; reflexivity.
  - split; [exact Hbd|]. split; [reflexivity|].
    apply leb_finite_pos.
    destruct Hcase as [(H1 & H2 & H3)|[(H1 & H2 & H3)|(H1 & H2)]].
    + right. split; [lia|]. assert (ez = e1) by lia.
      rewrite H3. replace (ez - e1) with 0 by lia.
      rewrite Pos2Z.inj_add, Ha. replace (ex - ez) with 0 by lia. simpl. lia.
    + destruct (Z.eq_dec ex e1) as [Heq|Hne]; [right|left; lia].
      split; [lia|]. apply Z.le_trans with (2 := H3).
      apply Z.div_le_lower_bound; [apply Z.pow_pos_nonneg; lia|].
      rewrite Pos2Z.inj_add, Ha. replace (e1 - ez) with (ex - ez) by lia. lia.
    + left. lia.
Qed.

Lemma nonneg_finite s m e : nonneg (S754_finite s m e) -> s = false.
Proof. destruct s; [discriminate|reflexivity]. Qed.

Lemma nonneg_infinity s : nonneg (S754_infinity s) -> s = false.
Proof. destruct s; [discriminate|reflexivity]. Qed.

(** Adding a non-negative float to a non-negative float never yields a
    smaller float. *)
Lemma add_nonneg x d :
  valid x -> valid d -> nonneg x -> nonneg d ->
  valid (add x d) /\ nonneg (add x d) /\ leb x (add x d) = true.
Proof.
  intros Vx Vd Nx Nd.
  destruct x as [sx|sx| |sx mx ex]; try discriminate;
  destruct d as [sd|sd| |sd md ed]; try discriminate;
  try (apply nonneg_finite in Nx; subst sx);
  try (apply nonneg_finite in Nd; subst sd);
  try (apply nonneg_infinity in Nx; subst sx);
  try (apply nonneg_infinity in Nd; subst sd);
  try (apply add_finite_pos; assumption).
  - destruct sx, sd; repeat split.
  - destruct sx; repeat split.
  - destruct sx; repeat split; assumption.
  - destruct sd; repeat split.
  - repeat split.
  - repeat split.
  - destruct sd; simpl; (split; [exact Vx|split; [reflexivity|]]);
      apply leb_finite_pos; right; split; lia.
  - repeat split.
Qed.

End FloatFacts.

(** ** The event timeline *)

Implicit Types (self r : TerminalRecorder) (d t : spec_float) (text : string).

Lemma ltb_asym d : Float.ltb d Float.zero = true -> Float.ltb Float.zero d = false.
Proof. FloatFacts.float_cases d; easy. Qed.

Lemma nonneg_not_nan d : Float.nonneg d -> d <> S754_nan.
Proof. intros H ->. discriminate. Qed.

Lemma write_late text d r :
  Float.ltb Float.zero d = true ->
  write text d r =
    {| width := width r; height := height r;
       events := events r ++ [(Float.add (current_time r) d, "o", text)];
       current_time := Float.add (current_time r) d |}.
Proof. intros H. unfold write. rewrite H. reflexivity. Qed.

Lemma write_now text d r :
  Float.ltb Float.zero d = false ->
  write text d r =
    {| width := width r; height := height r;
       events := events r ++ [(current_time r, "o", text)];
       current_time := current_time r |}.
Proof. intros H. unfold write. rewrite H. reflexivity. Qed.

Lemma run_app cs1 cs2 r : run (cs1 ++ cs2) r = run cs2 (run cs1 r).
Proof. unfold run. apply fold_left_app. Qed.

Lemma run_steps_type_text text d r :
  run (steps (DoTypeText text d)) r = type_text text d r.
Proof.
  revert r. induction text as [|ch rest IH]; intros r; [reflexivity|].
  simpl. apply IH.
Qed.

Lemma run_steps c r : run (steps c) r = exec c r.
Proof. destruct c; try reflexivity. apply run_steps_type_text. Qed.

(** Unrolling the loops of [type_text] does not change what a script does. *)
Lemma run_flat_steps cs r : run (flat_map steps cs) r = run cs r.
Proof.
  revert r. induction cs as [|c cs IH]; intros r; [reflexivity|].
  simpl flat_map. rewrite run_app, run_steps, IH. reflexivity.
Qed.

Lemma steps_ok c : call_ok c -> Forall call_ok (steps c).
Proof.
  destruct c as [text d|text d|d|]; intros H; simpl; try (constructor; [exact H|constructor]).
  induction (list_ascii_of_string text); simpl; constructor; assumption.
Qed.

Lemma flat_steps_ok cs : Forall call_ok cs -> Forall call_ok (flat_map steps cs).
Proof.
  induction 1 as [|c cs Hc _ IH]; simpl; [constructor|].
  apply Forall_app. split; [apply steps_ok; exact Hc|exact IH].
Qed.

Lemma init_ok w h : timeline_ok (init w h).
Proof. split; simpl; try reflexivity; constructor. Qed.

Lemma StronglySorted_snoc (R : spec_float -> spec_float -> Prop) l t :
  StronglySorted R l -> Forall (fun x => R x t) l -> StronglySorted R (l ++ [t]).
Proof.
  induction 1 as [|a l Hl IH Ha]; intros Ht; simpl.
  - constructor; constructor.
  - inversion Ht; subst. constructor; [apply IH; assumption|].
    apply Forall_app. split; [exact Ha|]. constructor; [assumption|constructor].
Qed.

(** Moving the clock forward to [t] and appending events stamped [t]. *)
Lemma advance_ok r t (stamped : bool) text :
  timeline_ok r -> Float.valid t -> Float.nonneg t -> le_float (current_time r) t ->
  timeline_ok {| width := width r; height := height r;
                 events := if stamped then events r ++ [(t, "o", text)] else events r;
                 current_time := t |}.
Proof.
  intros [Hv Hn Hs Hp] Vt Nt Hle.
  assert (Hp' : Forall (fun x => le_float x t) (map ev_time (events r))).
  { eapply Forall_impl; [exact Hp|]. intros x Hx.
    unfold le_float in *. eapply FloatFacts.leb_trans; eassumption. }
  assert (Hrefl : le_float t t)
    by (apply FloatFacts.leb_refl, nonneg_not_nan; exact Nt).
  destruct stamped; split; simpl; try assumption.
  - rewrite map_app. simpl. apply StronglySorted_snoc; assumption.
  - rewrite map_app. simpl. apply Forall_app. split; [exact Hp'|].
    constructor; [exact Hrefl|constructor].
Qed.

Lemma write_ok text d r :
  arg_ok d -> timeline_ok r ->
  timeline_ok (write text d r) /\ le_float (current_time r) (current_time (write text d r)).
Proof.
  intros [Vd Nd] Hr.
  destruct (Float.ltb Float.zero d) eqn:Hd.
  - rewrite write_late by exact Hd. simpl.
    destruct (FloatFacts.add_nonneg (current_time r) d) as (V & N & L);
      try assumption; try apply Hr.
    split; [|exact L].
    apply (advance_ok r (Float.add (current_time r) d) true text); assumption.
  - rewrite write_now by exact Hd. simpl.
    assert (L : le_float (current_time r) (current_time r))
      by (apply FloatFacts.leb_refl, nonneg_not_nan; apply Hr).
    split; [|exact L].
    apply (advance_ok r (current_time r) true text); try assumption; apply Hr.
Qed.

Lemma pause_ok d r :
  arg_ok d -> timeline_ok r ->
  timeline_ok (pause d r) /\ le_float (current_time r) (current_time (pause d r)).
Proof.
  intros [Vd Nd] Hr. unfold pause. simpl.
  destruct (FloatFacts.add_nonneg (current_time r) d) as (V & N & L);
    try assumption; try apply Hr.
  split; [|exact L].
  apply (advance_ok r (Float.add (current_time r) d) false ""); assumption.
Qed.

Lemma zero_ok : arg_ok Float.zero.
Proof. split; reflexivity. Qed.

Lemma le_float_refl r : timeline_ok r -> le_float (current_time r) (current_time r).
Proof.
  intros Hr. apply FloatFacts.leb_refl, nonneg_not_nan. apply Hr.
Qed.

Lemma le_float_trans a b t : le_float a b -> le_float b t -> le_float a t.
Proof. apply FloatFacts.leb_trans. Qed.

Create HintDb timeline.
#[local] Hint Resolve init_ok zero_ok le_float_refl le_float_trans : timeline.

Lemma type_text_ok text d : forall r,
  arg_ok d -> timeline_ok r ->
  timeline_ok (type_text text d r) /\
  le_float (current_time r) (current_time (type_text text d r)).
Proof.
  induction text as [|ch rest IH]; intros r Hd Hr; simpl.
  - auto with timeline.
  - destruct (write_ok (String ch "") d r Hd Hr) as [Hw Lw].
    destruct (IH _ Hd Hw) as [Ht Lt]. eauto with timeline.
Qed.

Lemma exec_ok c r :
  call_ok c -> timeline_ok r ->
  timeline_ok (exec c r) /\ le_float (current_time r) (current_time (exec c r)).
Proof.
  destruct c as [text d|text d|d|]; simpl; intros Hc Hr.
  - apply write_ok; assumption.
  - apply type_text_ok; assumption.
  - apply pause_ok; assumption.
  - apply write_ok; auto with timeline.
Qed.

Lemma run_ok cs : forall r,
  Forall call_ok cs -> timeline_ok r ->
  timeline_ok (run cs r) /\ le_float (current_time r) (current_time (run cs r)).
Proof.
  induction cs as [|c cs IH]; intros r Hcs Hr.
  - auto with timeline.
  - inversion Hcs as [|c' cs' Hc Hcs']; subst.
    destruct (exec_ok c r Hc Hr) as [H1 L1].
    destruct (IH _ Hcs' H1) as [H2 L2]. eauto with timeline.
Qed.


Lemma tick_n_S n c d :
  tick_n (S n) c d = tick_n n (tick_n 1 c d) d.
Proof. unfold tick_n. destruct (Float.ltb Float.zero d); reflexivity. Qed.

Lemma write_tick text d r :
  write text d r
  = {| width := width r; height := height r;
       events := events r ++ [(tick_n 1 (current_time r) d, "o", text)];
       current_time := tick_n 1 (current_time r) d |}.
Proof. unfold write, tick_n. destruct (Float.ltb Float.zero d); reflexivity. Qed.

Lemma type_text_events text d : forall r,
  exists new,
    events (type_text text d r) = events r ++ new /\
    length new = String.length text /\
    map ev_data new = map (fun ch => String ch "") (list_ascii_of_string text) /\
    (forall i e, nth_error new i = Some e ->
       ev_type e = "o" /\ ev_time e = tick_n (S i) (current_time r) d) /\
    current_time (type_text text d r) = tick_n (String.length text) (current_time r) d /\
    width (type_text text d r) = width r /\
    height (type_text text d r) = height r.
Proof.
  induction text as [|ch rest IH]; intros r.
  - exists []. simpl. rewrite app_nil_r. repeat split.
    + destruct i; discriminate.
    + destruct i; discriminate.
    + unfold tick_n. destruct (Float.ltb Float.zero d); reflexivity.
  - simpl type_text. destruct (IH (write (String ch "") d r)) as (new & He & Hl & Hd & Hn & Hc & Hw & Hh).
    assert (Ew : events (write (String ch "") d r)
                 = events r ++ [(tick_n 1 (current_time r) d, "o", String ch "")])
      by (rewrite write_tick; reflexivity).
    assert (Cw : current_time (write (String ch "") d r) = tick_n 1 (current_time r) d)
      by (rewrite write_tick; reflexivity).
    rewrite Ew in He. rewrite Cw in Hc, Hn.
    replace (width (write (String ch "") d r)) with (width r) in Hw by reflexivity.
    replace (height (write (String ch "") d r)) with (height r) in Hh by reflexivity.
    exists ((tick_n 1 (current_time r) d, "o", String ch "") :: new).
    split; [rewrite He, <- app_assoc; reflexivity|].
    split; [simpl; rewrite Hl; reflexivity|].
    split; [simpl; rewrite Hd; reflexivity|].
    split; [|split; [|split; assumption]].
    + intros [|i] e Hi; simpl in Hi.
      * inversion Hi; subst. split; reflexivity.
      * destruct (Hn i e Hi) as [H1 H2]. split; [exact H1|].
        rewrite H2. symmetry. apply tick_n_S.
    + rewrite Hc. simpl String.length. symmetry. apply tick_n_S.
Qed.


(** ** The serializer *)
Section SerializerFacts.

Variable dumps : json -> string.
Variable loads : string -> option json.

Lemma append_cons ch (a b : string) : String ch a +:+ b = String ch (a +:+ b).
Proof. reflexivity. Qed.

Lemma append_nil_l (b : string) : "" +:+ b = b.
Proof. reflexivity. Qed.

Lemma append_assoc (a b c : string) : (a +:+ b) +:+ c = a +:+ b +:+ c.
Proof.
  induction a as [|ch a IH]; [reflexivity|].
  rewrite !append_cons, IH. reflexivity.
Qed.

Lemma append_nil_r (a : string) : a +:+ "" = a.
Proof.
  induction a as [|ch a IH]; [reflexivity|].
  rewrite append_cons, IH. reflexivity.
Qed.

Lemma write_loop (evs : list event) (f : string) :
  fold_left (fun f ev => f_write (dumps (event_record ev) +:+ NL) f) evs f
  = f +:+ unlines (map (fun ev => dumps (event_record ev)) evs).
Proof.
  revert f. induction evs as [|ev evs IH]; intros f; simpl.
  - symmetry. apply append_nil_r.
  - rewrite IH. unfold f_write. rewrite !append_assoc. reflexivity.
Qed.

(** The file is the header line followed by one line per event. *)
Lemma save_asciicast_unlines self now :
  save_asciicast dumps self now = unlines (map dumps (cast_records self now)).
Proof.
  unfold save_asciicast, cast_records. rewrite write_loop.
  unfold f_write. simpl map. unfold unlines at 2. simpl fold_right.
  fold (unlines (map dumps (map event_record (events self)))).
  rewrite append_nil_l, map_map, append_assoc. reflexivity.
Qed.

Lemma lines_line (l rest : string) :
  one_line l = true ->
  lines (l +:+ NL +:+ rest) = l :: lines rest.
Proof.
  induction l as [|ch l IH]; intros Hl; [reflexivity|].
  simpl in Hl. apply andb_true_iff in Hl. destruct Hl as [Hch Hl].
  rewrite append_cons. simpl lines.
  destruct (Ascii.eqb ch "010"%char); [discriminate|].
  rewrite IH by exact Hl. reflexivity.
Qed.

Lemma lines_unlines (ls : list string) :
  Forall (fun l => one_line l = true) ls ->
  lines (unlines ls) = ls.
Proof.
  induction 1 as [|l ls Hl _ IH]; simpl; [reflexivity|].
  rewrite lines_line by exact Hl. rewrite IH. reflexivity.
Qed.

Lemma record_event_record ev : record_event (event_record ev) = Some ev.
Proof. destruct ev as [[t c] p]. reflexivity. Qed.

Lemma read_events (evs : list event) :
  Forall (fun v => loads (dumps v) = Some v) (map event_record evs) ->
  mapM (fun l => loads l ≫= record_event) (map (fun ev => dumps (event_record ev)) evs)
  = Some evs.
Proof.
  induction evs as [|ev evs IH]; intros H; [reflexivity|].
  inversion H as [|v vs Hv Hvs]; subst.
  simpl. rewrite Hv. simpl. rewrite record_event_record. simpl.
  rewrite IH by exact Hvs. reflexivity.
Qed.

End SerializerFacts.

(** The calls keep the dimensions of the recorder and put every event on
    the channel ["o"]. *)
Lemma write_frame text d r :
  width (write text d r) = width r /\ height (write text d r) = height r /\
  (all_output (events r) -> all_output (events (write text d r))).
Proof.
  split; [reflexivity|]. split; [reflexivity|]. intros H.
  apply Forall_app. split; [exact H|]. constructor; [reflexivity|constructor].
Qed.

Lemma type_text_frame text d : forall r,
  width (type_text text d r) = width r /\ height (type_text text d r) = height r /\
  (all_output (events r) -> all_output (events (type_text text d r))).
Proof.
  induction text as [|ch rest IH]; intros r; simpl; [auto|].
  destruct (IH (write (String ch "") d r)) as (Hw & Hh & Ho).
  destruct (write_frame (String ch "") d r) as (Hw' & Hh' & Ho').
  split; [congruence|]. split; [congruence|]. auto.
Qed.

Lemma exec_frame c r :
  width (exec c r) = width r /\ height (exec c r) = height r /\
  (all_output (events r) -> all_output (events (exec c r))).
Proof.
  destruct c as [text d|text d|d|]; unfold exec.
  - apply write_frame.
  - apply type_text_frame.
  - unfold pause. simpl. auto.
  - unfold clear_screen. apply write_frame.
Qed.

Lemma run_frame cs : forall r,
  width (run cs r) = width r /\ height (run cs r) = height r /\
  (all_output (events r) -> all_output (events (run cs r))).
Proof.
  induction cs as [|c cs IH]; intros r; simpl; [auto|].
  destruct (exec_frame c r) as (Hw & Hh & Ho).
  destruct (IH (exec c r)) as (Hw' & Hh' & Ho').
  split; [congruence|]. split; [congruence|]. auto.
Qed.

(** ** Examples *)

(** The literals [0.05], [0.1] and [2.0]. *)
Example literal_0_05 : Float.decimal 5 2 = S754_finite false 7205759403792794 (-57).
Proof. vm_compute. reflexivity. Qed.

Example literal_0_1 : Float.decimal 1 1 = S754_finite false 7205759403792794 (-56).
Proof. vm_compute. reflexivity. Qed.

Example literal_2_0 : Float.of_Z 2 = S754_finite false 4503599627370496 (-51).
Proof. vm_compute. reflexivity. Qed.

(** [write("A", 0.05)] then [write("B", 0.05)] on a fresh recorder. *)
Example sequencing :
  events (write "B" (Float.decimal 5 2) (write "A" (Float.decimal 5 2) init_default))
  = [(Float.decimal 5 2, "o", "A"); (Float.decimal 1 1, "o", "B")].
Proof. vm_compute. reflexivity. Qed.

(** Ten additions of [0.1] to [0.0] stop one unit in the last place short
    of [1.0]. *)
Example ten_tenths :
  Float.add_n 10 Float.zero (Float.decimal 1 1)
  = S754_finite false 9007199254740991 (-53) /\
  Float.of_Z 1 = S754_finite false 4503599627370496 (-52).
Proof. split; vm_compute; reflexivity. Qed.

Example color_green :
  fst (color "OK" "green" init_default) = ESC +:+ "[0;32mOK" +:+ ESC +:+ "[0m".
Proof. reflexivity. Qed.

(** The line of an event, and the event read back from it. *)
Example event_line :
  Json.dumps (event_record (Float.of_Z 2, "o", "X"))
  = "[2.0, " +:+ String Json.DQ "o" +:+ String Json.DQ ", "
    +:+ String Json.DQ "X" +:+ String Json.DQ "]" /\
  Json.loads (Json.dumps (event_record (Float.of_Z 2, "o", "X")))
  = Some (event_record (Float.of_Z 2, "o", "X")).
Proof. split; vm_compute; reflexivity. Qed.

(** ** Claims *)

(** Claim C1, as stated, fails.  [write("A", -1.0)] on a fresh recorder
    returns, raising nothing, and has appended an event; [pause(-1.0)]
    after [pause(2.0)] returns as well, with the clock at [1.0]. *)
Lemma negative_arguments_are_not_rejected :
  let d := Float.of_Z (-1) in
  let paused := pause (Float.of_Z 2) init_default in
  Float.ltb d Float.zero = true /\
  invoke (write "A" d) init_default
    = Returned (mkRecorder 80 24 [(Float.zero, "o", "A")] Float.zero) /\
  (forall e, invoke (write "A" d) init_default <> Raised e init_default) /\
  events (write "A" d init_default) <> events init_default /\
  invoke (pause d) paused = Returned (mkRecorder 80 24 [] (Float.of_Z 1)) /\
  (forall e, invoke (pause d) paused <> Raised e paused) /\
  current_time (pause d paused) <> current_time paused.
Proof.
  cbv zeta. split; [reflexivity|]. split; [reflexivity|].
  split; [intros e; discriminate|]. split; [discriminate|].
  split; [reflexivity|]. split; [intros e; discriminate|].
  vm_compute. discriminate.
Qed.

(** Claim C1, amended.  A call of [write] with a negative delay returns:
    it leaves the clock where it was and appends one event, stamped with
    the clock and carrying the text, as a zero delay does.  A call of
    [pause] with a negative duration returns too, and appends no event. *)
Theorem negative_delay_is_ignored text d self :
  Float.ltb d Float.zero = true ->
  invoke (write text d) self
    = Returned {| width := width self; height := height self;
                  events := events self ++ [(current_time self, "o", text)];
                  current_time := current_time self |} /\
  invoke (write text d) self = invoke (write text Float.zero) self /\
  exists self', invoke (pause d) self = Returned self' /\ events self' = events self.
Proof.
  intros Hd. apply ltb_asym in Hd. unfold invoke.
  rewrite (write_now text d self Hd).
  repeat split. exists (pause d self). split; reflexivity.
Qed.

Lemma negative_delay_is_ignored_witness :
  invoke (write "A" (Float.of_Z (-1))) init_default
    = Returned (mkRecorder 80 24 [(Float.zero, "o", "A")] Float.zero).
Proof.
  exact (proj1 (negative_delay_is_ignored "A" (Float.of_Z (-1)) init_default eq_refl)).
Defined.

(** Claim C2.  On a fresh recorder, after a script of [write],
    [type_text], [pause] and [clear_screen] calls whose delays and
    durations are non-negative floats, the timestamps are in
    non-decreasing order, every earlier one at most every later one; and
    between any two points of the script, the loops of [type_text]
    unrolled into their calls of [write], the clock has not decreased. *)
Theorem timestamps_never_decrease w h cs :
  Forall call_ok cs ->
  StronglySorted le_float (map ev_time (events (run cs (init w h)))) /\
  (forall pre mid post, flat_map steps cs = pre ++ mid ++ post ->
     le_float (current_time (run pre (init w h)))
              (current_time (run (pre ++ mid) (init w h)))) /\
  run (flat_map steps cs) (init w h) = run cs (init w h).
Proof.
  intros Hcs. split; [|split].
  - apply (run_ok cs (init w h) Hcs (init_ok w h)).
  - intros pre mid post Heq.
    apply flat_steps_ok in Hcs. rewrite Heq in Hcs.
    apply Forall_app in Hcs. destruct Hcs as [Hpre Hrest].
    apply Forall_app in Hrest. destruct Hrest as [Hmid _].
    rewrite run_app.
    apply run_ok; [exact Hmid|]. apply run_ok; auto with timeline.
  - apply run_flat_steps.
Qed.

Lemma timestamps_never_decrease_witness :
  StronglySorted le_float
    (map ev_time
       (events (run [DoPause (Float.of_Z 2); DoTypeText "ls" (Float.decimal 4 2);
                     DoWrite "X" Float.zero] init_default))).
Proof.
  refine (proj1 (timestamps_never_decrease 80 24
            [DoPause (Float.of_Z 2); DoTypeText "ls" (Float.decimal 4 2);
             DoWrite "X" Float.zero] _)).
  repeat constructor.
Defined.

(** Claim C3.  With a delay [d > 0], [write(text, d)] first moves the
    clock to [current_time + d] and then appends one event, stamped with
    the new clock and carrying [text].  [write("A", 0.05)] on a fresh
    recorder leaves the one event [(0.05, "o", "A")], and [0.05] is not
    [0.0]. *)
Theorem write_charges_delay_first :
  (forall text d self,
     Float.ltb Float.zero d = true ->
     write text d self
       = {| width := width self; height := height self;
            events := events self ++ [(Float.add (current_time self) d, "o", text)];
            current_time := Float.add (current_time self) d |}) /\
  (forall w h,
     events (write "A" (Float.decimal 5 2) (init w h)) = [(Float.decimal 5 2, "o", "A")] /\
     Float.decimal 5 2 <> Float.zero).
Proof.
  split.
  - intros text d self Hd. apply write_late. exact Hd.
  - intros w h. split; [vm_compute; reflexivity|vm_compute; discriminate].
Qed.

Lemma write_charges_delay_first_witness :
  write "A" (Float.decimal 5 2) init_default
    = mkRecorder 80 24 [(Float.decimal 5 2, "o", "A")] (Float.decimal 5 2).
Proof.
  exact (proj1 write_charges_delay_first "A" (Float.decimal 5 2) init_default eq_refl).
Defined.

(** Claim C4, as stated, fails.  The call of line 123 of the script,
    [type_text("git clone https://github.com/ferg-cod3s/vibesec.git", 0.04)],
    types 51 characters and, on a fresh recorder, leaves the clock at
    4593671619917908 * 2^-51.  That is neither the float [51 * 0.04],
    which is 4593671619917906 * 2^-51, nor the rational product of 51 by
    the float [0.04]. *)
Lemma typing_cost_is_not_the_product :
  let d := Float.decimal 4 2 in
  let r := type_text CLONE d init_default in
  String.length CLONE = 51%nat /\
  Float.nonneg d /\
  current_time r = S754_finite false 4593671619917908 (-51) /\
  Float.add (current_time init_default) (Float.mul (Float.of_Z 51) d)
    = S754_finite false 4593671619917906 (-51) /\
  current_time r
    <> Float.add (current_time init_default) (Float.mul (Float.of_Z 51) d) /\
  (forall q qd, Float.to_Q (current_time r) = Some q -> Float.to_Q d = Some qd ->
     ~ (q == 51 * qd)%Q).
Proof.
  cbv zeta. split; [reflexivity|]. split; [reflexivity|].
  split; [vm_compute; reflexivity|]. split; [vm_compute; reflexivity|].
  split; [vm_compute; discriminate|].
  intros q qd Hq Hqd. vm_compute in Hq, Hqd.
  inversion Hq; inversion Hqd; subst. vm_compute. discriminate.
Qed.

(** Claim C4, amended.  [type_text(s, d)] with [d >= 0] appends [len(s)]
    events, the characters of [s] one by one in their order, and moves the
    clock by [len(s)] successive float additions of [d] (by none when [d]
    is zero): the event of the character at index [i] is stamped with the
    clock after [i + 1] of them.  The empty string leaves the recorder as
    it was. *)
Theorem type_text_cost d self :
  Float.nonneg d ->
  type_text "" d self = self /\
  forall text, exists new,
    events (type_text text d self) = events self ++ new /\
    length new = String.length text /\
    map ev_data new = map (fun ch => String ch "") (list_ascii_of_string text) /\
    (forall i e, nth_error new i = Some e ->
       ev_type e = "o" /\ ev_time e = tick_n (S i) (current_time self) d) /\
    current_time (type_text text d self)
      = tick_n (String.length text) (current_time self) d.
Proof.
  intros _. split; [reflexivity|]. intros text.
  destruct (type_text_events text d self) as (new & H1 & H2 & H3 & H4 & H5 & _).
  exists new. split; [exact H1|]. split; [exact H2|]. split; [exact H3|].
  split; [exact H4|exact H5].
Qed.

Lemma type_text_cost_witness :
  type_text "" (Float.decimal 4 2) init_default = init_default.
Proof.
  exact (proj1 (type_text_cost (Float.decimal 4 2) init_default eq_refl)).
Defined.

(** Claim C5.  [pause(d)] with [d >= 0] moves the clock to
    [current_time + d] and appends no event.  On a fresh recorder,
    [pause(2.0)] then [write("X", 0)] leaves the one event
    [(2.0, "o", "X")]. *)
Theorem pause_moves_the_clock_only :
  (forall d self,
     Float.nonneg d ->
     pause d self
       = {| width := width self; height := height self;
            events := events self;
            current_time := Float.add (current_time self) d |}) /\
  (forall w h,
     events (write "X" Float.zero (pause (Float.of_Z 2) (init w h)))
       = [(Float.of_Z 2, "o", "X")]).
Proof.
  split.
  - intros d self _. reflexivity.
  - intros w h. vm_compute. reflexivity.
Qed.

Lemma pause_moves_the_clock_only_witness :
  pause (Float.of_Z 2) init_default = mkRecorder 80 24 [] (Float.of_Z 2).
Proof.
  exact (proj1 pause_moves_the_clock_only (Float.of_Z 2) init_default eq_refl).
Defined.

(** Claim C6.  For each of the seven colour names, [color(text, name)] is
    the code of the name, then [text], then the reset code; for a name
    that is not a key of the table it is [text], then the reset code.  The
    recorder takes no part in the result and is left as it was. *)
Theorem color_wraps_text text self :
  color text "red" self = ((ESC +:+ "[0;31m") +:+ text +:+ RESET, self) /\
  color text "green" self = ((ESC +:+ "[0;32m") +:+ text +:+ RESET, self) /\
  color text "yellow" self = ((ESC +:+ "[1;33m") +:+ text +:+ RESET, self) /\
  color text "blue" self = ((ESC +:+ "[0;34m") +:+ text +:+ RESET, self) /\
  color text "purple" self = ((ESC +:+ "[0;35m") +:+ text +:+ RESET, self) /\
  color text "cyan" self = ((ESC +:+ "[0;36m") +:+ text +:+ RESET, self) /\
  color text "bold" self = ((ESC +:+ "[1m") +:+ text +:+ RESET, self) /\
  (forall name, colors !! name = None -> color text name self = (text +:+ RESET, self)) /\
  (forall name other, fst (color text name self) = fst (color text name other)).
Proof.
  repeat split; try reflexivity.
  intros name Hname. unfold color, dict_get. rewrite Hname. reflexivity.
Qed.

Lemma color_wraps_text_witness :
  color "OK" "magenta" init_default = ("OK" +:+ RESET, init_default).
Proof.
  exact (proj1 (proj2 (proj2 (proj2 (proj2 (proj2 (proj2 (proj2
           (color_wraps_text "OK" init_default))))))))
           "magenta" eq_refl).
Defined.

(** Claim C7.  [clear_screen()] leaves the recorder as
    [write("\033[2J\033[H", 0)] does: with one more event, which carries
    the clear-and-home sequence and is stamped with the clock, and with
    the clock where it was. *)
Theorem clear_screen_is_a_write self :
  clear_screen self = write CLEAR_AND_HOME Float.zero self /\
  clear_screen self = write CLEAR_AND_HOME (Float.of_Z 0) self /\
  clear_screen self
    = {| width := width self; height := height self;
         events := events self ++ [(current_time self, "o", CLEAR_AND_HOME)];
         current_time := current_time self |}.
Proof. repeat split. Qed.

(** Claim C8.  The file starts with the line of the header, whose
    [version] is 2 and whose [width] and [height] are the arguments the
    recorder was built with, whatever was called on it since; one line
    per stored event follows. *)
Theorem header_comes_first (dumps : json -> string) w h cs now :
  let self := run cs (init w h) in
  save_asciicast dumps self now
    = dumps (header self now) +:+ NL
      +:+ unlines (map (fun ev => dumps (event_record ev)) (events self)) /\
  json_field "version" (header self now) = Some (JInt 2) /\
  json_field "width" (header self now) = Some (JInt w) /\
  json_field "height" (header self now) = Some (JInt h) /\
  length (map (fun ev => dumps (event_record ev)) (events self)) = length (events self).
Proof.
  intros self. destruct (run_frame cs (init w h)) as (Hw & Hh & _).
  fold self in Hw, Hh. simpl in Hw, Hh.
  split; [|split; [|split; [|split]]].
  - rewrite save_asciicast_unlines. unfold cast_records. simpl.
    rewrite map_map. reflexivity.
  - reflexivity.
  - simpl. rewrite Hw. reflexivity.
  - simpl. rewrite Hh. reflexivity.
  - apply length_map.
Qed.

(** Claim C9.  After the header line the file has one line per stored
    event, in stored order, each the text of [[timestamp, "o", payload]].
    When the library reads each record of the file back as it was
    written, and writes it on one line, reading the file back gives the
    header and the events as they were stored, in the same order. *)
Theorem cast_round_trip (dumps : json -> string) (loads : string -> option json)
    w h cs now :
  let self := run cs (init w h) in
  let event_lines :=
    map (fun ev => dumps (JList [JFloat (ev_time ev); JStr "o"; JStr (ev_data ev)]))
        (events self) in
  save_asciicast dumps self now = unlines (dumps (header self now) :: event_lines) /\
  length event_lines = length (events self) /\
  (Forall (round_trips dumps loads) (cast_records self now) ->
   lines (save_asciicast dumps self now) = dumps (header self now) :: event_lines /\
   parse_cast loads (save_asciicast dumps self now) = Some (header self now, events self)).
Proof.
  intros self event_lines.
  assert (Hrec : map dumps (cast_records self now)
                 = dumps (header self now) :: event_lines).
  { unfold cast_records, event_lines. simpl. f_equal. rewrite map_map.
    destruct (run_frame cs (init w h)) as (_ & _ & Ho). fold self in Ho.
    assert (Ho' : all_output (events self)) by (apply Ho; constructor).
    clear Ho event_lines. revert Ho'. generalize (events self). intros evs Ho.
    induction Ho as [|ev evs Hev _ IH]; [reflexivity|].
    simpl. rewrite IH. f_equal.
    destruct ev as [[t c] p]. cbv [ev_type fst snd] in Hev. subst c. reflexivity. }
  split; [rewrite save_asciicast_unlines, Hrec; reflexivity|].
  split; [apply length_map|].
  intros Hrt.
  assert (Hlines : lines (save_asciicast dumps self now)
                   = map dumps (cast_records self now)).
  { rewrite save_asciicast_unlines. apply lines_unlines.
    apply Forall_map. eapply Forall_impl; [exact Hrt|]. intros v [_ Hv]. exact Hv. }
  split; [rewrite Hlines; exact Hrec|].
  unfold parse_cast. rewrite Hlines. unfold cast_records in *. simpl.
  inversion Hrt as [|v vs [Hh _] Hevs]; subst.
  rewrite Hh. simpl. rewrite map_map.
  rewrite read_events; [reflexivity|].
  eapply Forall_impl; [exact Hevs|]. intros v [Hv _]. exact Hv.
Qed.

Lemma cast_round_trip_witness :
  let cs := [DoClearScreen; DoPause (Float.of_Z 2); DoTypeText "ls" (Float.decimal 4 2);
             DoWrite (fst (color "OK" "green" init_default)) Float.zero] in
  let self := run cs init_default in
  parse_cast Json.loads (save_asciicast Json.dumps self 1700000000)
    = Some (header self 1700000000, events self).
Proof.
  intros cs self.
  refine (proj2 (proj2 (proj2
            (cast_round_trip Json.dumps Json.loads 80 24 cs 1700000000)) _)).
  repeat (constructor; [split; vm_compute; reflexivity|]). constructor.
Defined.

(** Claim C10.  ["reset"] is a key of the table, so [color(text, "reset")]
    is the reset code, then [text], then the reset code. *)
Theorem color_reset_is_a_key text self :
  colors !! "reset" = Some RESET /\
  color text "reset" self = (RESET +:+ text +:+ RESET, self).
Proof. split; reflexivity. Qed.

(** ** The event list and the clock, further *)

Lemma exec_events_app c r :
  exists new, events (exec c r) = events r ++ new /\
              length new = emitted c /\ all_output new.
Proof.
  destruct c as [text d|text d|d|]; simpl.
  - eexists. split; [reflexivity|]. split; [reflexivity|]. repeat constructor.
  - destruct (type_text_events text d r) as (new & H1 & H2 & _ & H4 & _).
    exists new. split; [exact H1|]. split; [exact H2|].
    apply List.Forall_forall. intros e He. apply List.In_nth_error in He.
    destruct He as [i Hi]. apply (H4 i e Hi).
  - exists []. rewrite app_nil_r. repeat split. constructor.
  - eexists. split; [reflexivity|]. split; [reflexivity|]. repeat constructor.
Qed.

Lemma run_events_app cs r :
  exists new,
    events (run cs r) = events r ++ new /\
    length new = list_sum (map emitted cs) /\
    all_output new.
Proof.
  revert r. induction cs as [|c cs IH]; intros r.
  - exists []. rewrite app_nil_r. repeat split. constructor.
  - destruct (exec_events_app c r) as (n1 & E1 & L1 & O1).
    destruct (IH (exec c r)) as (n2 & E2 & L2 & O2).
    exists (n1 ++ n2). split; [|split].
    + change (run (c :: cs) r) with (run cs (exec c r)).
      rewrite E2, E1, app_assoc. reflexivity.
    + simpl. rewrite length_app, L1, L2. reflexivity.
    + apply Forall_app. split; assumption.
Qed.

(** Property X1.  The event list is append-only.  Whatever the calls and their
    arguments, the events a recorder held before a script are the first
    events it holds after it, unchanged and in the same order; the script
    adds one output event for each [write] and [clear_screen], one for
    each character of each [type_text], and none for a [pause]. *)
Theorem calls_only_append cs r :
  exists new,
    events (run cs r) = events r ++ new /\
    length new = list_sum (map emitted cs) /\
    all_output new /\
    width (run cs r) = width r /\ height (run cs r) = height r.
Proof.
  destruct (run_events_app cs r) as (new & He & Hl & Ho).
  destruct (run_frame cs r) as (Hw & Hh & _).
  exists new. repeat split; assumption.
Qed.

Lemma write_stamps text d r :
  arg_ok d -> timeline_ok r -> stamps_nonneg r -> stamps_nonneg (write text d r).
Proof.
  intros Hd Hr Hs. destruct (write_ok text d r Hd Hr) as [Hw _].
  unfold stamps_nonneg. simpl. rewrite map_app. apply Forall_app.
  split; [exact Hs|]. constructor; [|constructor]. apply (clock_nonneg _ Hw).
Qed.

Lemma type_text_stamps text d : forall r,
  arg_ok d -> timeline_ok r -> stamps_nonneg r -> stamps_nonneg (type_text text d r).
Proof.
  induction text as [|ch rest IH]; intros r Hd Hr Hs; simpl; [exact Hs|].
  apply IH; [exact Hd| |].
  - apply write_ok; assumption.
  - apply write_stamps; assumption.
Qed.

Lemma exec_stamps c r :
  call_ok c -> timeline_ok r -> stamps_nonneg r -> stamps_nonneg (exec c r).
Proof.
  destruct c as [text d|text d|d|]; simpl; intros Hc Hr Hs.
  - apply write_stamps; assumption.
  - apply type_text_stamps; assumption.
  - exact Hs.
  - apply write_stamps; auto with timeline.
Qed.

Lemma run_stamps cs : forall r,
  Forall call_ok cs -> timeline_ok r -> stamps_nonneg r -> stamps_nonneg (run cs r).
Proof.
  induction cs as [|c cs IH]; intros r Hcs Hr Hs; [exact Hs|].
  inversion Hcs as [|c' cs' Hc Hcs']; subst.
  apply IH; [exact Hcs'| |].
  - apply exec_ok; assumption.
  - apply exec_stamps; assumption.
Qed.

(** Property X2.  After any script with non-negative delays and durations on a fresh
    recorder, the clock is a float that is neither negative nor a NaN,
    and every timestamp lies between [0.0] and the clock. *)
Theorem stamps_within_clock w h cs :
  Forall call_ok cs ->
  let r := run cs (init w h) in
  Float.valid (current_time r) /\
  Float.nonneg (current_time r) /\
  current_time r <> S754_nan /\
  Forall (fun ev => le_float Float.zero (ev_time ev) /\
                    le_float (ev_time ev) (current_time r)) (events r).
Proof.
  intros Hcs r.
  destruct (run_ok cs (init w h) Hcs (init_ok w h)) as [Hok _]. fold r in Hok.
  assert (Hs : stamps_nonneg r)
    by (apply run_stamps; [exact Hcs|apply init_ok|constructor]).
  split; [apply Hok|]. split; [apply Hok|]. split; [apply nonneg_not_nan, Hok|].
  pose proof (stamps_past _ Hok) as Hp. unfold stamps_nonneg in Hs.
  revert Hs Hp. generalize (current_time r). generalize (events r).
  induction l as [|ev evs IH]; intros c Hs Hp; simpl in *; [constructor|].
  inversion Hs; inversion Hp; subst. constructor; [split; assumption|].
  apply IH; assumption.
Qed.

Lemma stamps_within_clock_witness :
  let r := run [DoPause (Float.of_Z 2); DoTypeText "ls" (Float.decimal 4 2);
                DoClearScreen] init_default in
  Forall (fun ev => le_float Float.zero (ev_time ev) /\
                    le_float (ev_time ev) (current_time r)) (events r).
Proof.
  refine (proj2 (proj2 (proj2 (stamps_within_clock 80 24
            [DoPause (Float.of_Z 2); DoTypeText "ls" (Float.decimal 4 2);
             DoClearScreen] _)))).
  repeat constructor.
Defined.

(** Property X3.  Typing a text in two parts, one after the other at the same speed,
    leaves the recorder as typing the whole text does. *)
Theorem type_text_app (s1 s2 : string) d r :
  type_text (s1 +:+ s2) d r = type_text s2 d (type_text s1 d r).
Proof.
  revert r. induction s1 as [|ch s1 IH]; intros r; [reflexivity|].
  rewrite append_cons. simpl. apply IH.
Qed.

Lemma exec_nan c r :
  current_time r = S754_nan -> current_time (exec c r) = S754_nan.
Proof.
  intros Hr. destruct c as [text d|text d|d|]; simpl.
  - rewrite Hr. destruct (Float.ltb Float.zero d); reflexivity.
  - revert r Hr. induction text as [|ch rest IH]; intros r Hr; simpl; [exact Hr|].
    apply IH. simpl. rewrite Hr. destruct (Float.ltb Float.zero d); reflexivity.
  - rewrite Hr. reflexivity.
  - exact Hr.
Qed.

Lemma exec_nan_events c r :
  current_time r = S754_nan ->
  exists new, events (exec c r) = events r ++ new /\
              Forall (fun ev => ev_time ev = S754_nan) new.
Proof.
  intros Hr. destruct c as [text d|text d|d|]; simpl.
  - eexists. split; [reflexivity|]. constructor; [|constructor].
    cbv [ev_time fst]. rewrite Hr. destruct (Float.ltb Float.zero d); reflexivity.
  - destruct (type_text_events text d r) as (new & H1 & _ & _ & H4 & _).
    exists new. split; [exact H1|].
    apply List.Forall_forall. intros e He. apply List.In_nth_error in He.
    destruct He as [i Hi]. destruct (H4 i e Hi) as [_ Ht]. rewrite Ht, Hr.
    unfold tick_n. destruct (Float.ltb Float.zero d); [|reflexivity].
    clear. induction i as [|i IHi]; [reflexivity|]. simpl in *. exact IHi.
  - exists []. rewrite app_nil_r. split; [reflexivity|constructor].
  - eexists. split; [reflexivity|]. constructor; [|constructor].
    cbv [ev_time fst]. exact Hr.
Qed.

Lemma run_nan cs : forall r,
  current_time r = S754_nan ->
  current_time (run cs r) = S754_nan /\
  exists new, events (run cs r) = events r ++ new /\
              Forall (fun ev => ev_time ev = S754_nan) new.
Proof.
  induction cs as [|c cs IH]; intros r Hr.
  - split; [exact Hr|]. exists []. rewrite app_nil_r. split; [reflexivity|constructor].
  - change (run (c :: cs) r) with (run cs (exec c r)).
    destruct (IH (exec c r) (exec_nan c r Hr)) as (Hc & n2 & E2 & N2).
    split; [exact Hc|].
    destruct (exec_nan_events c r Hr) as (n1 & E1 & N1).
    exists (n1 ++ n2). split; [rewrite E2, E1, app_assoc; reflexivity|].
    apply Forall_app. split; assumption.
Qed.

(** Property X4.  [pause] checks nothing: after [pause(float("nan"))] the clock is a NaN
    and stays one whatever is called afterwards, and every event
    appended from then on is stamped with a NaN. *)
Theorem nan_pause_is_never_recovered r cs :
  let r' := run cs (pause S754_nan r) in
  current_time r' = S754_nan /\
  exists new, events r' = events r ++ new /\
              Forall (fun ev => ev_time ev = S754_nan) new.
Proof.
  intros r'. assert (Hp : current_time (pause S754_nan r) = S754_nan).
  { unfold pause. simpl. destruct (current_time r) as [[]|[]| |[] ? ?]; reflexivity. }
  destruct (run_nan cs (pause S754_nan r) Hp) as (Hc & new & E & N).
  split; [exact Hc|]. exists new. split; [exact E|exact N].
Qed.

Lemma write_same_timing (a b : string) d r1 r2 :
  same_timing r1 r2 -> same_timing (write a d r1) (write b d r2).
Proof.
  intros [Hc Hs]. unfold same_timing, write. simpl.
  rewrite !map_app, Hc, Hs. split; reflexivity.
Qed.

Lemma type_text_same_timing text d : forall r1 r2,
  same_timing r1 r2 -> same_timing (type_text (blank text) d r1) (type_text text d r2).
Proof.
  induction text as [|ch rest IH]; intros r1 r2 H; simpl; [exact H|].
  apply IH. apply write_same_timing. exact H.
Qed.

Lemma exec_same_timing c r1 r2 :
  same_timing r1 r2 -> same_timing (exec (timing c) r1) (exec c r2).
Proof.
  intros H. destruct c as [text d|text d|d|]; simpl.
  - apply write_same_timing. exact H.
  - apply type_text_same_timing. exact H.
  - destruct H as [Hc Hs]. unfold same_timing, pause. simpl. rewrite Hc. auto.
  - apply write_same_timing. exact H.
Qed.

(** Property X5.  The texts take no part in the timing: a script with every written
    text emptied and every typed character replaced by a space leaves the
    same clock and the same timestamps, in the same order. *)
Theorem timing_ignores_text cs r :
  current_time (run (map timing cs) r) = current_time (run cs r) /\
  map ev_time (events (run (map timing cs) r)) = map ev_time (events (run cs r)).
Proof.
  assert (H : forall r1 r2, same_timing r1 r2 ->
                same_timing (run (map timing cs) r1) (run cs r2)).
  { induction cs as [|c cs IH]; intros r1 r2 H12; [exact H12|].
    simpl. apply IH. apply exec_same_timing. exact H12. }
  apply H. split; reflexivity.
Qed.

(** ** The colour table, further *)

(** Property X6.  The dictionary has the eight keys of [color_names] and no other: a
    name among them gives its code, the text and the reset code, any
    other name the text and the reset code. *)
Theorem color_names_are_the_keys (name : string) :
  (colors !! name = None <-> name ∉ color_names) /\
  (name ∈ color_names ->
     exists code, colors !! name = Some code /\
       forall text self, color text name self = (code +:+ text +:+ RESET, self)) /\
  (name ∉ color_names ->
     forall text self, color text name self = (text +:+ RESET, self)).
Proof.
  assert (Hnone : colors !! name = None <-> name ∉ color_names).
  { unfold colors. rewrite <- not_elem_of_list_to_map. reflexivity. }
  split; [exact Hnone|]. split.
  - intros Hin. destruct (colors !! name) as [code|] eqn:Hc.
    + exists code. split; [reflexivity|]. intros text self.
      unfold color, dict_get. rewrite Hc. reflexivity.
    + exfalso. apply (proj1 Hnone eq_refl), Hin.
  - intros Hout text self. apply Hnone in Hout.
    unfold color, dict_get. rewrite Hout. reflexivity.
Qed.

Lemma color_names_are_the_keys_witness :
  color "OK" "orange" init_default = ("OK" +:+ RESET, init_default).
Proof.
  refine (proj2 (proj2 (color_names_are_the_keys "orange")) _ "OK" init_default).
  apply (proj1 (proj1 (color_names_are_the_keys "orange"))). reflexivity.
Defined.

Lemma length_append (a b : string) :
  String.length (a +:+ b) = (String.length a + String.length b)%nat.
Proof.
  induction a as [|ch a IH]; [reflexivity|].
  rewrite append_cons. simpl. rewrite IH. reflexivity.
Qed.

Lemma append_inj_r (a b s : string) : a +:+ s = b +:+ s -> a = b.
Proof.
  revert b. induction a as [|ch a IH]; intros [|ch' b] H.
  - reflexivity.
  - exfalso. apply (f_equal String.length) in H.
    rewrite append_nil_l, append_cons in H. simpl in H. rewrite length_append in H. lia.
  - exfalso. apply (f_equal String.length) in H.
    rewrite append_nil_l, append_cons in H. simpl in H. rewrite length_append in H. lia.
  - rewrite !append_cons in H. injection H as -> H. f_equal. apply IH. exact H.
Qed.

(** Property X7.  Colouring loses nothing of the text: with the same colour name, two
    texts that come out equal were equal. *)
Theorem color_keeps_the_text (name a b : string) r1 r2 :
  fst (color a name r1) = fst (color b name r2) -> a = b.
Proof.
  unfold color. simpl. intros H.
  apply String.app_inj in H. apply append_inj_r in H. exact H.
Qed.

Lemma color_keeps_the_text_witness :
  fst (color "OK" "green" init_default)
  = fst (color "OK" "green" (pause Float.zero init_default))
  /\ "OK" = "OK".
Proof.
  split; [reflexivity|].
  apply (color_keeps_the_text "green" "OK" "OK"
           init_default (pause Float.zero init_default)).
  reflexivity.
Defined.

(** ** The file, further *)

Lemma unlines_app (a b : list string) : unlines (a ++ b) = unlines a +:+ unlines b.
Proof.
  induction a as [|l a IH]; [reflexivity|].
  simpl. rewrite IH, !append_assoc. reflexivity.
Qed.

(** Property X8.  Calls made after a save only add to the file: the file saved after
    them is the file saved before them followed by one line per event
    they appended, when both are saved at the same second. *)
Theorem later_calls_extend_the_file (dumps : json -> string) cs r now :
  exists new,
    events (run cs r) = events r ++ new /\
    save_asciicast dumps (run cs r) now
    = save_asciicast dumps r now
      +:+ unlines (map (fun ev => dumps (event_record ev)) new).
Proof.
  destruct (run_events_app cs r) as (new & He & _).
  exists new. split; [exact He|].
  destruct (run_frame cs r) as (Hw & Hh & _).
  rewrite !save_asciicast_unlines. unfold cast_records, header.
  rewrite He, Hw, Hh, map_app, !map_cons, map_app, !map_map.
  rewrite app_comm_cons, unlines_app. reflexivity.
Qed.

(** Property X9.  The wall clock reaches the file through the [timestamp] field of the
    header only: two saves of the same recorder at different times have
    headers that agree on every other field, and the same text after the
    header line. *)
Theorem wall_clock_is_in_the_header_only (dumps : json -> string) r now1 now2 :
  (forall key, key <> "timestamp" ->
     json_field key (header r now1) = json_field key (header r now2)) /\
  json_field "timestamp" (header r now1) = Some (JInt now1) /\
  exists body,
    save_asciicast dumps r now1 = dumps (header r now1) +:+ NL +:+ body /\
    save_asciicast dumps r now2 = dumps (header r now2) +:+ NL +:+ body.
Proof.
  split; [|split; [reflexivity|]].
  - intros key Hkey. unfold header, json_field, field.
    repeat match goal with
           | |- context [String.eqb ?k key] =>
               destruct (String.eqb k key) eqn:E;
               [try reflexivity; apply String.eqb_eq in E; congruence|clear E]
           end.
    reflexivity.
  - exists (unlines (map (fun ev => dumps (event_record ev)) (events r))).
    rewrite !save_asciicast_unlines. unfold cast_records.
    rewrite !map_cons, map_map. split; reflexivity.
Qed.

Lemma wall_clock_is_in_the_header_only_witness :
  json_field "width" (header init_default 1700000000)
  = json_field "width" (header init_default 1800000000).
Proof.
  refine (proj1 (wall_clock_is_in_the_header_only Json.dumps init_default
                   1700000000 1800000000) "width" _).
  discriminate.
Defined.

(** ** The demo script *)


Lemma call_okb_ok cs : forallb call_okb cs = true -> Forall call_ok cs.
Proof.
  induction cs as [|c cs IH]; intros H; [constructor|].
  simpl in H. apply andb_true_iff in H. destruct H as [Hc Hcs].
  constructor; [|apply IH; exact Hcs].
  destruct c as [text d|text d|d|]; simpl in *; try exact I;
    apply andb_true_iff in Hc; destruct Hc as [Hv Hn]; split; assumption.
Qed.

Lemma acts_as_bind {A B : Type} (m : stmt A) (k : A -> stmt B) a b cs1 cs2 :
  acts_as m a cs1 -> acts_as (k a) b cs2 -> acts_as (m ≫= k) b (cs1 ++ cs2).
Proof.
  intros Hm Hk r. unfold mbind, stmt_bind. rewrite Hm, Hk, run_app. reflexivity.
Qed.

Lemma acts_as_write text : acts_as (recorder.write text) tt [DoWrite text Float.zero].
Proof. intros r. reflexivity. Qed.

Lemma acts_as_type_text text d : acts_as (recorder.type_text text d) tt [DoTypeText text d].
Proof. intros r. reflexivity. Qed.

Lemma acts_as_pause d : acts_as (recorder.pause d) tt [DoPause d].
Proof. intros r. reflexivity. Qed.

Lemma acts_as_clear_screen : acts_as recorder.clear_screen tt [DoClearScreen].
Proof. intros r. reflexivity. Qed.

Lemma acts_as_color text code :
  acts_as (recorder.color text code)
          (dict_get colors code "" +:+ text +:+ colors !!! "reset") [].
Proof. intros r. reflexivity. Qed.

Lemma acts_as_for_nil {A : Type} (body : A -> stmt unit) :
  acts_as (for_each [] body) tt [].
Proof. intros r. reflexivity. Qed.

Lemma acts_as_for_cons {A : Type} (body : A -> stmt unit) x xs cs1 cs2 :
  acts_as (body x) tt cs1 -> acts_as (for_each xs body) tt cs2 ->
  acts_as (for_each (x :: xs) body) tt (cs1 ++ cs2).
Proof.
  intros H1 H2.
  exact (acts_as_bind (body x) (fun _ => for_each xs body) tt tt cs1 cs2 H1 H2).
Qed.

Ltac script_step :=
  lazymatch goal with
  | |- acts_as (mbind _ _) _ _ => eapply acts_as_bind
  | |- acts_as (recorder.write _) _ _ => apply acts_as_write
  | |- acts_as (recorder.type_text _ _) _ _ => apply acts_as_type_text
  | |- acts_as (recorder.pause _) _ _ => apply acts_as_pause
  | |- acts_as recorder.clear_screen _ _ => apply acts_as_clear_screen
  | |- acts_as (recorder.color _ _) _ _ => apply acts_as_color
  | |- acts_as (for_each [] _) _ _ => apply acts_as_for_nil
  | |- acts_as (for_each (_ :: _) _) _ _ => eapply acts_as_for_cons
  | |- acts_as (for_each ?xs _) _ _ =>
      let xs' := eval cbv in xs in change xs with xs'
  | |- acts_as (let _ := _ in _) _ _ => cbv zeta
  | |- acts_as ((fun _ => _) _) _ _ => cbv beta
  | |- acts_as (match _ with _ => _ end) _ _ => cbv beta iota
  end.

(** The demo is one script, the same on every recorder, and its delays
    and durations are non-negative floats. *)
Lemma demo_script :
  exists cs, acts_as generate_vibesec_demo tt cs /\ Forall call_ok cs.
Proof.
  eexists. split.
  - unfold generate_vibesec_demo. repeat script_step.
  - apply call_okb_ok. vm_compute. reflexivity.
Qed.


Lemma demo_events r :
  let r' := snd (generate_vibesec_demo r) in
  width r' = width r /\ height r' = height r /\
  exists new, events r' = events r ++ new /\ length new = 491%nat /\ all_output new.
Proof.
  intros r'. destruct demo_script as (cs & Hcs & Hok).
  assert (Hn : list_sum (map emitted cs) = 491%nat).
  { destruct (run_events_app cs init_default) as (new & He & Hl & _).
    rewrite <- Hl. change (events init_default) with (@nil event) in He.
    rewrite app_nil_l in He. rewrite <- He.
    pose proof (Hcs init_default) as H0. apply (f_equal snd) in H0. cbn [snd] in H0.
    rewrite <- H0. vm_compute. reflexivity. }
  unfold r'. rewrite (Hcs r). cbn [snd].
  destruct (run_frame cs r) as (Hw & Hh & _).
  destruct (run_events_app cs r) as (new & He & Hl & Ho).
  split; [exact Hw|]. split; [exact Hh|].
  exists new. split; [exact He|]. split; [congruence|exact Ho].
Qed.

(** Property X10.  The demo keeps the timeline in order on every recorder that is in
    order when it starts: all its delays and durations are non-negative
    floats, so the clock ends where it was or later, the timestamps are
    in non-decreasing order and none is ahead of the clock. *)
Theorem demo_keeps_the_timeline r :
  timeline_ok r ->
  let r' := snd (generate_vibesec_demo r) in
  timeline_ok r' /\ le_float (current_time r) (current_time r').
Proof.
  intros Hr r'. destruct demo_script as (cs & Hcs & Hok).
  unfold r'. rewrite (Hcs r). cbn [snd]. apply run_ok; assumption.
Qed.

Lemma demo_keeps_the_timeline_witness :
  timeline_ok (snd (generate_vibesec_demo init_default)).
Proof.
  exact (proj1 (demo_keeps_the_timeline init_default (init_ok 80 24))).
Defined.

(** Property X11.  The demo returns nothing, leaves the dimensions and the events the
    recorder held, and appends 491 output events, whatever the recorder
    it is given. *)
Theorem demo_appends_491_events r :
  fst (generate_vibesec_demo r) = tt /\
  let r' := snd (generate_vibesec_demo r) in
  width r' = width r /\ height r' = height r /\
  exists new, events r' = events r ++ new /\ length new = 491%nat /\ all_output new.
Proof.
  split; [destruct (fst (generate_vibesec_demo r)); reflexivity|].
  exact (demo_events r).
Qed.

(** ** The command line *)

Section MainFacts.

Variable dumps : json -> string.
Variable now : Z.
Variable writable : string -> bool.

(** Property X12.  [main] writes to no path but [args.output], whatever the format and
    whether or not the file can be opened; with a format other than
    ["cast"], [svg] among them, it writes no file at all. *)
Theorem main_touches_only_the_output a w :
  (forall path, path <> args.output a ->
     files (world_of (main dumps now writable a w)) !! path = files w !! path) /\
  (args.format a <> "cast" ->
     files (world_of (main dumps now writable a w)) = files w).
Proof.
  unfold main, save_asciicast_to.
  destruct (String.eqb_spec (args.format a) "cast") as [Hc|Hc].
  - split; [|intros H; contradiction].
    intros path Hp. destruct (writable (args.output a)); simpl; [|reflexivity].
    apply lookup_insert_ne. congruence.
  - split; intros; destruct (String.eqb (args.format a) "svg"); reflexivity.
Qed.


(** Property X14.  With the format ["cast"] and a path that cannot be opened, the
    [OSError] leaves [main]: no file is changed and nothing is printed
    after the line that announces the generation, so no success is
    reported. *)
Theorem main_fails_without_a_file a w :
  args.format a = "cast" -> writable (args.output a) = false ->
  exists w',
    main dumps now writable a w = Raised_OSError w' /\
    files w' = files w /\
    stdout w' = stdout w ++ ["Generating VibeSec demo..."].
Proof.
  intros Hf Hw. unfold main, save_asciicast_to.
  rewrite Hf. simpl String.eqb. cbv iota. simpl stdout. rewrite Hw.
  eexists. split; [reflexivity|]. split; reflexivity.
Qed.

End MainFacts.

Lemma main_touches_only_the_output_witness :
  let w := {| stdout := []; files := {[ "notes.txt" := "keep" ]} |} in
  files (world_of (main Json.dumps 1700000000 (fun _ => true) args.default w))
    !! "notes.txt"
  = files w !! "notes.txt".
Proof.
  intros w.
  refine (proj1 (main_touches_only_the_output Json.dumps 1700000000 (fun _ => true)
                   args.default w) "notes.txt" _).
  intros H. vm_compute in H. discriminate H.
Defined.


Lemma main_fails_without_a_file_witness :
  let w := {| stdout := []; files := {[ "vibesec-demo.cast" := "old" ]} |} in
  exists w',
    main Json.dumps 1700000000 (fun _ => false) args.default w = Raised_OSError w' /\
    files w' = files w.
Proof.
  intros w.
  destruct (main_fails_without_a_file Json.dumps 1700000000 (fun _ => false)
              args.default w eq_refl eq_refl) as (w' & Hm & Hf & _).
  exists w'. split; [exact Hm|exact Hf].
Defined.
